(** * Inventory cost sync: the dashboard transform and the command-line driver

    A shallow embedding of [scrape_markov_inventory.transform_dashboard_data]
    (decoder, normalizer, aggregator) and of [main.main], with the properties
    the design specification states about them, followed by the functions
    around them ([scrape_markov_inventory], [upload_inventory_to_postgres],
    [test_connection]) as programs over the outcomes of their library calls.

    Line numbers refer to [src/scrape_markov_inventory.py], [src/main.py] and
    [src/upload_to_postgres.py].

    Conventions of the embedding.
    - A Python [dict] read only through [get], [in] and item assignment is a
      [gmap]; a [dict] whose insertion order is observed ([slices_data],
      [aggregated]) is an association list in insertion order.
    - A Python exception is a value of [exn]; code that may raise returns a
      [result].
    - A Python [float] is a binary64 [PrimFloat.float]; the only [int] that
      reaches a record is the literal [0].
    - Strings are sequences of characters; indices into the row arrays are
      integers ([Z]), as the payload's data model has them.
    - The library functions [json.loads] and [float], and the clock reading
      that yields [date_now], are parameters of the transform; reference
      implementations of the two functions are given for closed examples.
    - The payload is taken within its data model: a section that is present
      has its expected JSON type, a row key is an array of integers or a
      text [json.loads] rejects, a dictionary entry is a string. On inputs
      outside it (a section present as [null], a row array with an element
      that is not an integer) the source raises [AttributeError] or
      [TypeError]; they have no counterpart here, and the properties below
      speak of payloads of the data model. *)

From Stdlib Require Import ZArith String Ascii List Bool.
From Stdlib Require Import PrimFloat FloatOps SpecFloat.
From stdpp Require Import base option list gmap strings.

Local Open Scope string_scope.
Local Open Scope list_scope.

(** ** Exceptions and results

    The exceptions the transform raises on a payload of the data model. *)

Inductive exn : Set :=
  | KeyError
  | IndexError
  | ValueError
  | ZeroDivisionError
  | UnboundLocalError.

Inductive result (A : Type) : Type :=
  | Ok (a : A)
  | Raise (e : exn).

Arguments Ok {A} a.
Arguments Raise {A} e.

#[global] Instance result_ret : MRet result := fun A a => Ok a.
#[global] Instance result_bind : MBind result := fun A B f m =>
  match m with
  | Ok a => f a
  | Raise e => Raise e
  end.

(** A [for] loop whose body may raise: the first exception leaves the loop. *)
Fixpoint for_each {St A : Type} (body : St -> A -> result St) (l : list A) (s : St)
  : result St :=
  match l with
  | [] => Ok s
  | x :: l' => s' ← body s x; for_each body l' s'
  end.

(** A list comprehension whose element expression may raise. *)
Fixpoint for_list {A B : Type} (f : A -> result B) (l : list A) : result (list B) :=
  match l with
  | [] => Ok []
  | x :: l' => y ← f x; ys ← for_list f l'; Ok (y :: ys)
  end.

(** ** Numbers *)

Module Num.

(** [qty], [actual_value] and [actual_unit_cost] hold either the [int]
    literal [0] (the defaults of the normalizer, and sums of them) or a
    [float]. *)
Inductive t : Set :=
  | Int0
  | Float (f : float).

(** [float(x)] on a number. *)
Definition to_float (x : t) : float :=
  match x with
  | Int0 => 0%float
  | Float f => f
  end.

(** Truth value of a number: false exactly for zeros ([0], [0.0], [-0.0]). *)
Definition truthy (x : t) : bool :=
  match x with
  | Int0 => false
  | Float f => negb (PrimFloat.eqb f 0%float)
  end.

(** [x + y]: [int + int] stays an [int], anything else is a float sum. *)
Definition add (x y : t) : t :=
  match x, y with
  | Int0, Int0 => Int0
  | _, _ => Float (to_float x + to_float y)%float
  end.

(** [x / y]: true division; a zero divisor raises. *)
Definition div (x y : t) : result t :=
  if truthy y then Ok (Float (to_float x / to_float y)%float)
  else Raise ZeroDivisionError.

End Num.

(** ** Inventory records *)

Module Item.

(** The dict built at lines 190-201, one field per key. *)
Record t : Set := mk {
  key : string;
  date : string;
  item : string;
  area : option string;
  qty : Num.t;
  actual_value : Num.t;
  actual_unit_cost : Num.t;
  gl_group : option string;
  type : string;
  unit : string
}.

Definition set_qty (q : Num.t) (r : t) : t :=
  mk (key r) (date r) (item r) (area r) q (actual_value r)
     (actual_unit_cost r) (gl_group r) (type r) (unit r).

Definition set_actual_value (v : Num.t) (r : t) : t :=
  mk (key r) (date r) (item r) (area r) (qty r) v
     (actual_unit_cost r) (gl_group r) (type r) (unit r).

Definition set_actual_unit_cost (c : Num.t) (r : t) : t :=
  mk (key r) (date r) (item r) (area r) (qty r) (actual_value r)
     c (gl_group r) (type r) (unit r).

End Item.

(** ** The raw payload

    The sections of the payload, each optional as a key of its parent. A
    section that is present has the type the transform expects of it. *)

(** An entry of [ViewModel.Columns]; either key may be missing ([col.get]). *)
Record column : Set := {
  Caption : option string;
  DataId : option string
}.

(** An entry of [Slices]. [Data] maps row keys to per-row metadata that the
    transform never inspects: only the keys are kept, in insertion order. *)
Record slice : Set := {
  Data : option (list string)
}.

Record data_storage : Type := {
  Slices : option (list slice);
  EncodeMaps : option (gmap string (list string))
}.

Record item_data : Type := {
  DataStorageDTO : option data_storage
}.

Record view_model : Set := {
  Columns : option (list column)
}.

Record payload : Type := {
  ItemData : option item_data;
  ViewModel : option view_model
}.

(** The element of [column_mappings] built from a column. *)
Record column_mapping : Set := {
  name : option string;
  dataId : option string
}.

(** A decoded row: the dict [obj]. Its keys are column names, and a column
    without a [Caption] has the name [None]. *)
Abbreviation flat_row := (gmap (option string) string).

(** [d.get(k)] on a decoded row. *)
Definition get (k : string) (d : flat_row) : option string := d !! Some k.

(** ** Python primitives used by the transform *)

(** [l[i]] on a list: a negative index counts from the end; [None] stands for
    [IndexError]. *)
Definition py_index {A : Type} (l : list A) (i : Z) : option A :=
  if (0 <=? i)%Z then l !! Z.to_nat i
  else if (- Z.of_nat (length l) <=? i)%Z then l !! Z.to_nat (Z.of_nat (length l) + i)
  else None.

(** [enumerate(l)], counting from [i]. *)
Fixpoint enumerate_from {A : Type} (i : nat) (l : list A) : list (nat * A) :=
  match l with
  | [] => []
  | x :: l' => (i, x) :: enumerate_from (S i) l'
  end.

Definition enumerate {A : Type} (l : list A) : list (nat * A) := enumerate_from 0 l.

(** [s.startswith(p)]. *)
Definition startswith (s p : string) : bool := String.prefix p s.

(** [s[:10]]. *)
Definition first10 (s : string) : string := String.substring 0 10 s.

(** Truth value of [d.get(k)]: false for [None] and for the empty string. *)
Definition truthy_field (v : option string) : bool :=
  match v with
  | Some s => negb (String.eqb s "")
  | None => false
  end.

(** An insertion-ordered dict as an association list. *)
Section Dict.
Context {V : Type}.

(** [k in d] and [d[k]] together. *)
Fixpoint dict_get (k : string) (d : list (string * V)) : option V :=
  match d with
  | [] => None
  | (k', v) :: d' => if String.eqb k k' then Some v else dict_get k d'
  end.

(** [d[k] = v]: an existing key keeps its position, a new key goes last. *)
Fixpoint dict_set (k : string) (v : V) (d : list (string * V)) : list (string * V) :=
  match d with
  | [] => [(k, v)]
  | (k', v') :: d' =>
      if String.eqb k k' then (k', v) :: d' else (k', v') :: dict_set k v d'
  end.

(** [list(d.values())]. *)
Definition dict_values (d : list (string * V)) : list V := map snd d.
End Dict.

(** ** The transform: [transform_dashboard_data] *)

(** The fixed table [owner_map]. *)
Definition owner_map : gmap string string :=
  <["4" := "SHOTTYS"]> (<["100314" := "MARKETING"]> (<["100374" := "IMPACKFUL"]> ∅)).

(** State of the decoding loop (lines 141-176): the list [output], and the
    variable [obj], which stays bound to the last decoded row after the loop
    ([None] while it is unbound). *)
Record decoded : Type := {
  output : list flat_row;
  obj : option flat_row
}.

Section Transform.

(** [json.loads] on a row key: [None] stands for [JSONDecodeError]. *)
Variable json_loads : string -> option (list Z).

(** [float] on a string: [None] stands for [ValueError]. *)
Variable float_of_str : string -> option float.

(** [(datetime.now() - timedelta(days=1)).strftime("%Y-%m-%d")]. *)
Variable date_now : string.

Section Decoder.

Variable column_mappings : list column_mapping.
Variable encode_maps : gmap string (list string).

(** Lines 153-166 for position [i] holding [value]: the column name and
    the decoded string when the field is set, [None] when the body
    [continue]s or falls through without assigning. *)
Definition resolve (i : nat) (value : Z) : option (option string * string) :=
  if (value =? -1)%Z then None
  else
    match column_mappings !! i with
    | None => None
    | Some column =>
        match dataId column with
        | None => None
        | Some data_id =>
            match encode_maps !! data_id with
            | None => None
            | Some dict =>
                if (value <? Z.of_nat (length dict))%Z then
                  match py_index dict value with
                  | Some v => Some (name column, v)
                  | None => None
                  end
                else None
            end
        end
    end.

(** One iteration of the inner loop (lines 152-166). *)
Definition decode_field (o : flat_row) (iv : nat * Z) : flat_row :=
  match resolve iv.1 iv.2 with
  | Some (n, v) => <[n := v]> o
  | None => o
  end.

(** Lines 151-166: the flat row of a parsed row array. *)
Definition decode_row (item_arr : list Z) : flat_row :=
  fold_left decode_field (enumerate item_arr) ∅.

(** Lines 167-171: the owner code is replaced when the table has it. *)
Definition remap_owner (o : flat_row) : flat_row :=
  match get "Owner" o with
  | Some owner_value =>
      match owner_map !! owner_value with
      | Some owner => <[Some "Owner" := owner]> o
      | None => o
      end
  | None => o
  end.

(** The condition of line 175. [o['Owner']] is evaluated only when the
    date test holds, and raises when the row has no [Owner]. *)
Definition keep_row (o : flat_row) : result bool :=
  match get "Date" o with
  | None => Ok false
  | Some d =>
      if startswith d date_now then
        match get "Owner" o with
        | Some owner =>
            Ok (bool_decide (owner = "SHOTTYS") || bool_decide (owner = "IMPACKFUL"))
        | None => Raise KeyError
        end
      else Ok false
  end.

(** One iteration of the outer loop (lines 142-176). *)
Definition decode_step (st : decoded) (item_key : string) : result decoded :=
  if negb (startswith item_key "[") then Ok st
  else
    match json_loads item_key with
    | None => Ok st
    | Some item_arr =>
        let o := remap_owner (decode_row item_arr) in
        keep ← keep_row o;
        Ok {| output := if keep : bool then output st ++ [o] else output st;
              obj := Some o |}
    end.

Definition decode_rows (slices_data : list string) : result decoded :=
  for_each decode_step slices_data {| output := []; obj := None |}.

End Decoder.

(** Lines 185-186: [float(d.get(k, 0)) if d.get(k) else 0]. *)
Definition number_field (v : option string) : result Num.t :=
  if truthy_field v then
    match v with
    | Some s =>
        match float_of_str s with
        | Some f => Ok (Num.Float f)
        | None => Raise ValueError
        end
    | None => Ok (Num.Float 0%float)
    end
  else Ok Num.Int0.

(** [obj['Owner']] at line 183, [obj] being the variable left by the
    decoding loop. *)
Definition last_owner (last : option flat_row) : result string :=
  match last with
  | None => Raise UnboundLocalError
  | Some o =>
      match get "Owner" o with
      | Some owner => Ok owner
      | None => Raise KeyError
      end
  end.

(** The body of the loop at lines 180-201: the candidate record of [d]. *)
Definition candidate (last : option flat_row) (d : flat_row) : result Item.t :=
  let item_code := default "" (get "ItemCode" d) in
  let sublot := default "0" (get "Sublot" d) in
  owner ← last_owner last;
  let key := item_code +:+ "-" +:+ sublot +:+ "-" +:+ owner +:+ "-"
             +:+ first10 (default "" (get "Date" d)) in
  let date := first10 (default "" (get "Date" d)) in
  qty ← number_field (get "Qty" d);
  actual_value ← number_field (get "ActualValue" d);
  actual_unit_cost ←
    (if Num.truthy qty && Num.truthy actual_value
     then Num.div actual_value qty else Ok Num.Int0);
  Ok (Item.mk key date item_code (get "Owner" d) qty actual_value
        actual_unit_cost (get "GLGroup" d)
        (default "" (get "Type" d)) (default "" (get "Unit" d))).

(** Lines 179-201. *)
Definition normalize (st : decoded) : result (list Item.t) :=
  for_list (candidate (obj st)) (output st).

(** One iteration of the aggregation loop (lines 205-213). *)
Definition aggregate_step (aggregated : list (string * Item.t)) (item : Item.t)
  : result (list (string * Item.t)) :=
  let item_id := Item.key item in
  match dict_get item_id aggregated with
  | Some acc =>
      let acc := Item.set_qty (Num.add (Item.qty acc) (Item.qty item)) acc in
      let acc := Item.set_actual_value
                   (Num.add (Item.actual_value acc) (Item.actual_value item)) acc in
      cost ← Num.div (Item.actual_value acc) (Item.qty acc);
      Ok (dict_set item_id (Item.set_actual_unit_cost cost acc) aggregated)
  | None => Ok (dict_set item_id item aggregated)
  end.

(** Lines 204-215. *)
Definition aggregate (inventory_items : list Item.t) : result (list Item.t) :=
  aggregated ← for_each aggregate_step inventory_items [];
  Ok (dict_values aggregated).

(** Lines 123-131: the sections of the payload, with the defaults the
    chained [get]s put in for a missing one. [Slices] present but empty
    makes [[0]] raise. *)
Definition get_data_storage (dashboard_data : payload) : data_storage :=
  default {| Slices := None; EncodeMaps := None |}
    (DataStorageDTO (default {| DataStorageDTO := None |} (ItemData dashboard_data))).

Definition get_slices_data (ds : data_storage) : result (list string) :=
  match default [ {| Data := None |} ] (Slices ds) with
  | [] => Raise IndexError
  | s :: _ => Ok (default [] (Data s))
  end.

Definition get_encode_maps (ds : data_storage) : gmap string (list string) :=
  default ∅ (EncodeMaps ds).

Definition get_column_mappings (dashboard_data : payload) : list column_mapping :=
  map (fun col => {| name := Caption col; dataId := DataId col |})
    (default [] (Columns (default {| Columns := None |} (ViewModel dashboard_data)))).

(** Lines 122-201: the candidate records, before aggregation. *)
Definition inventory_items (dashboard_data : payload) : result (list Item.t) :=
  let ds := get_data_storage dashboard_data in
  slices_data ← get_slices_data ds;
  let encode_maps := get_encode_maps ds in
  let column_mappings := get_column_mappings dashboard_data in
  st ← decode_rows column_mappings encode_maps slices_data;
  normalize st.

Definition transform_dashboard_data (dashboard_data : payload) : result (list Item.t) :=
  items ← inventory_items dashboard_data;
  aggregate items.

End Transform.

(** ** Reference implementations of the library functions *)

(** Characters of a string, and helpers shared by the two readers. *)
Module Chars.

Definition code (c : ascii) : nat := nat_of_ascii c.

Definition digit (c : ascii) : option Z :=
  if (48 <=? code c)%nat && (code c <=? 57)%nat
  then Some (Z.of_nat (code c - 48)) else None.

Definition is_digit (c : ascii) : bool :=
  match digit c with Some _ => true | None => false end.

Definition is_char (n : nat) (c : ascii) : bool := (code c =? n)%nat.

Fixpoint lstrip (ws : ascii -> bool) (s : list ascii) : list ascii :=
  match s with
  | c :: s' => if ws c then lstrip ws s' else s
  | [] => []
  end.

Definition strip (ws : ascii -> bool) (s : list ascii) : list ascii :=
  rev (lstrip ws (rev (lstrip ws s))).

Definition number (ds : list Z) : Z := fold_left (fun a d => 10 * a + d)%Z ds 0%Z.

End Chars.

(** [json.loads] restricted to what a row key is in the payload's data
    model: a JSON array of integers. Any other text is rejected, as a text
    that is not JSON is. It agrees with Python on arrays of integers (of
    fewer digits than Python's limit on integer texts) and on texts that are
    not JSON; a JSON array with an element of another kind, which Python
    reads, is outside the data model and is rejected too. *)
Module Json.
Import Chars.

(** JSON whitespace: space, tab, line feed, carriage return. *)
Definition ws (c : ascii) : bool :=
  is_char 32 c || is_char 9 c || is_char 10 c || is_char 13 c.

(** The pieces between commas. *)
Fixpoint split (s : list ascii) : list (list ascii) :=
  match s with
  | [] => [[]]
  | c :: s' =>
      if is_char 44 c then [] :: split s'
      else
        match split s' with
        | piece :: pieces => (c :: piece) :: pieces
        | [] => [[c]]
        end
  end.

(** A JSON integer: an optional minus sign, then [0] or digits that do not
    start with [0]. *)
Definition int (s : list ascii) : option Z :=
  let '(neg, ds) :=
    match s with
    | c :: s' => if is_char 45 c then (true, s') else (false, s)
    | [] => (false, s)
    end in
  match ds with
  | [] => None
  | c :: rest =>
      if is_char 48 c && negb (bool_decide (rest = [])) then None
      else n ← mapM digit ds; Some (if neg then - number n else number n)%Z
  end.

Definition loads (item_key : string) : option (list Z) :=
  match strip ws (list_ascii_of_string item_key) with
  | c :: body =>
      if is_char 91 c then
        match rev body with
        | c' :: rbody =>
            if is_char 93 c' then
              let inner := rev rbody in
              if bool_decide (strip ws inner = []) then Some []
              else mapM (fun piece => int (strip ws piece)) (split inner)
            else None
        | [] => None
        end
      else None
  | [] => None
  end.

End Json.

(** [float] on a string of ASCII characters: surrounding whitespace (space,
    tab, line feed, vertical tab, form feed, carriage return) is dropped; a
    sign, then [inf], [infinity] or [nan] in any case, or a decimal number
    with an optional exponent, single underscores allowed between digits.
    The value is the nearest binary64 number, ties to even. Digits and
    spaces outside ASCII, which Python accepts, are not read. *)
Module PyFloat.
Import Chars.

Definition ws (c : ascii) : bool :=
  ((9 <=? code c)%nat && (code c <=? 13)%nat) || is_char 32 c.

Definition lower (c : ascii) : ascii :=
  if (65 <=? code c)%nat && (code c <=? 90)%nat
  then ascii_of_nat (code c + 32) else c.

(** [digit (["_"] digit)*]: the digits read and the text left. *)
Fixpoint digitpart (fuel : nat) (s : list ascii) : list Z * list ascii :=
  match fuel with
  | O => ([], s)
  | S fuel' =>
      match s with
      | c :: s' =>
          match digit c with
          | None => ([], s)
          | Some d =>
              let s'' :=
                match s' with
                | u :: (c' :: _) as t =>
                    if is_char 95 u && is_digit c' then t else s'
                | _ => s'
                end in
              let '(ds, rest) := digitpart fuel' s'' in (d :: ds, rest)
          end
      | [] => ([], [])
      end
  end.

Definition sign (s : list ascii) : bool * list ascii :=
  match s with
  | c :: s' =>
      if is_char 45 c then (true, s')
      else if is_char 43 c then (false, s') else (false, s)
  | [] => (false, [])
  end.

(** [m * 10^e], signed, rounded to binary64. *)
Definition decimal (neg : bool) (m e : Z) : float :=
  SF2Prim
    match m with
    | Zpos p =>
        if (0 <=? e)%Z then
          binary_normalize prec emax (if neg then - (m * 10 ^ e) else m * 10 ^ e)%Z 0 false
        else
          SFdiv prec emax (S754_finite neg p 0)
            (S754_finite false (Z.to_pos (10 ^ (- e))) 0)
    | _ => S754_zero neg
    end.

Definition special (neg : bool) (s : list ascii) : option float :=
  let l := string_of_list_ascii (map lower s) in
  if String.eqb l "inf" || String.eqb l "infinity"
  then Some (if neg then neg_infinity else infinity)
  else if String.eqb l "nan" then Some nan else None.

Definition finite (neg : bool) (s : list ascii) : option float :=
  let n := length s in
  let '(ip, r) := digitpart n s in
  let '(fp, r) :=
    match r with
    | c :: r' => if is_char 46 c then digitpart n r' else ([], r)
    | [] => ([], r)
    end in
  if bool_decide (ip = []) && bool_decide (fp = []) then None
  else
    let m := number (ip ++ fp) in
    let shift := (- Z.of_nat (length fp))%Z in
    match r with
    | [] => Some (decimal neg m shift)
    | c :: r' =>
        if is_char 101 (lower c) then
          let '(eneg, r'') := sign r' in
          match digitpart n r'' with
          | (d :: ds, []) =>
              let e := number (d :: ds) in
              Some (decimal neg m (shift + (if eneg then - e else e)))%Z
          | _ => None
          end
        else None
    end.

Definition of_str (s : string) : option float :=
  let '(neg, body) := sign (strip ws (list_ascii_of_string s)) in
  match special neg body with
  | Some f => Some f
  | None => finite neg body
  end.

End PyFloat.

(** ** The command-line driver: [main.main] *)

Module Cli.

(** What one of [main]'s two handlers catches. *)
Inductive raised : Set :=
  | Exception
  | KeyboardInterrupt.

Inductive outcome (A : Type) : Type :=
  | Returns (a : A)
  | Raises (r : raised).

Arguments Returns {A} a.
Arguments Raises {A} r.

(** The three collaborators [main] calls, each at most once, by what the
    call does. [print] is taken to return. *)
Record collaborators : Type := {
  test_connection : outcome bool;
  scrape_markov_inventory : outcome (list Item.t);
  upload_inventory_to_postgres : list Item.t -> outcome nat
}.

(** The calls made, oldest first. *)
Inductive call : Type :=
  | TestConnection
  | Scrape
  | Upload (inventory_data : list Item.t).

(** A computation that calls collaborators, logs the calls and may raise. *)
Definition prog (A : Type) : Type := collaborators -> list call -> outcome A * list call.

#[global] Instance prog_ret : MRet prog := fun A a _ log => (Returns a, log).

#[global] Instance prog_bind : MBind prog := fun A B k m w log =>
  match m w log with
  | (Returns a, log') => k a w log'
  | (Raises r, log') => (Raises r, log')
  end.

Definition perform {A : Type} (c : call) (f : collaborators -> outcome A) : prog A :=
  fun w log => (f w, log ++ [c]).

(** The [try] block of [main] (lines 20-47). *)
Definition main_try : prog Z :=
  connected ← perform TestConnection test_connection;
  if negb connected then mret 1%Z
  else
    inventory_data ← perform Scrape scrape_markov_inventory;
    match inventory_data with
    | [] => mret 0%Z
    | _ :: _ =>
        records_uploaded ←
          perform (Upload inventory_data)
            (fun w => upload_inventory_to_postgres w inventory_data);
        mret 0%Z
    end.

(** [main]: the value it returns, which [sys.exit] makes the exit code of
    the process, and the calls it made. *)
Definition main (w : collaborators) : Z * list call :=
  match main_try w [] with
  | (Returns exit_code, log) => (exit_code, log)
  | (Raises KeyboardInterrupt, log) => (130%Z, log)
  | (Raises Exception, log) => (1%Z, log)
  end.

End Cli.

(** ** Inputs of the closed examples *)

Definition col (caption data_id : string) : column :=
  {| Caption := Some caption; DataId := Some data_id |}.

(** A payload with every section present. *)
Definition dashboard (columns : list column) (encode_maps : list (string * list string))
    (row_keys : list string) : payload :=
  {| ItemData := Some {| DataStorageDTO := Some
       {| Slices := Some [ {| Data := Some row_keys |} ];
          EncodeMaps := Some (list_to_map encode_maps) |} |};
     ViewModel := Some {| Columns := Some columns |} |}.

(** The transform with the reference [json.loads] and [float], run on the
    day after [2024-01-02]. *)
Definition items_on_2024_01_03 : payload -> result (list Item.t) :=
  inventory_items Json.loads PyFloat.of_str "2024-01-02".

Definition transform_on_2024_01_03 : payload -> result (list Item.t) :=
  transform_dashboard_data Json.loads PyFloat.of_str "2024-01-02".

Definition stock_columns : list column :=
  [col "Owner" "o"; col "Date" "d"; col "ItemCode" "i"; col "Qty" "q";
   col "ActualValue" "v"].

Definition stock_maps : list (string * list string) :=
  [("o", ["4"; "100374"; "100314"]); ("d", ["2024-01-02T00:00:00"; "2024-01-01"]);
   ("i", ["X1"]); ("q", ["10"; "5"; "-5"; "abc"]); ("v", ["50"; "20"])].

Definition stock (row_keys : list string) : payload :=
  dashboard stock_columns stock_maps row_keys.

(** A decoded row given by its fields. *)
Definition row (fields : list (string * string)) : flat_row :=
  list_to_map (map (fun kv => (Some kv.1, kv.2)) fields).

(** Two rows of the same item and day, the first owned by SHOTTYS (code
    [4]), the second by IMPACKFUL (code [100374]). *)
Definition two_owners : payload := stock ["[0,0,0,0,0]"; "[1,0,0,1,1]"].

(** A receipt of 5 units and its reversal, -5 units, of the same item. *)
Definition reversal : payload := stock ["[0,0,0,1,1]"; "[0,0,0,2,1]"].

(** A row dated on the reference day whose [Owner] position holds the
    sentinel. *)
Definition dated_without_owner : payload := stock ["[-1,0,0,0,0]"].

(** A kept row whose [Qty] is the text [abc]. *)
Definition qty_abc : flat_row :=
  row [("Owner", "SHOTTYS"); ("Date", "2024-01-02T00:00:00"); ("ItemCode", "X1");
       ("Qty", "abc"); ("ActualValue", "20")].

(** A kept row without [Qty]. *)
Definition no_qty : flat_row :=
  row [("Owner", "SHOTTYS"); ("Date", "2024-01-02T00:00:00"); ("ItemCode", "X1");
       ("ActualValue", "20")].

(** A kept row without [ActualValue]. *)
Definition no_value : flat_row :=
  row [("Owner", "SHOTTYS"); ("Date", "2024-01-02T00:00:00"); ("ItemCode", "X1");
       ("Qty", "5")].

(** A kept row whose [ActualValue] is the text [n/a]. *)
Definition value_na : flat_row :=
  row [("Owner", "SHOTTYS"); ("Date", "2024-01-02T00:00:00"); ("ItemCode", "X1");
       ("Qty", "5"); ("ActualValue", "n/a")].

(** A payload without any section. *)
Definition no_sections : payload := {| ItemData := None; ViewModel := None |}.

(** Two columns with the same caption. *)
Definition twice_owner : list column_mapping :=
  [ {| name := Some "Owner"; dataId := Some "o" |};
    {| name := Some "Owner"; dataId := Some "i" |} ].

(** Three candidates, the first and the last with the same key. *)
Definition receipt_x1 : Item.t :=
  Item.mk "X1-0-SHOTTYS-2024-01-02" "2024-01-02" "X1" (Some "SHOTTYS")
    (Num.Float 10) (Num.Float 50) (Num.Float 5) (Some "RAW") "Bulk" "kg".

Definition receipt_y2 : Item.t :=
  Item.mk "Y2-7-SHOTTYS-2024-01-02" "2024-01-02" "Y2" (Some "SHOTTYS")
    (Num.Float 1) (Num.Float 3) (Num.Float 3) None "" "".

Definition second_x1 : Item.t :=
  Item.mk "X1-0-SHOTTYS-2024-01-02" "2024-01-02" "X1" (Some "IMPACKFUL")
    (Num.Float 5) (Num.Float 20) (Num.Float 4) (Some "PACK") "Case" "ea".

Definition merged_x1 : Item.t :=
  Item.mk "X1-0-SHOTTYS-2024-01-02" "2024-01-02" "X1" (Some "SHOTTYS")
    (Num.Float 15) (Num.Float 70) (Num.Float (70 / 15)) (Some "RAW") "Bulk" "kg".

(** Collaborators of [main]: a run that uploads, one that scrapes nothing,
    one without a database, and runs in which a call raises. *)
Definition uploading : Cli.collaborators :=
  {| Cli.test_connection := Cli.Returns true;
     Cli.scrape_markov_inventory := Cli.Returns [receipt_x1];
     Cli.upload_inventory_to_postgres := fun l => Cli.Returns (length l) |}.

Definition nothing_scraped : Cli.collaborators :=
  {| Cli.test_connection := Cli.Returns true;
     Cli.scrape_markov_inventory := Cli.Returns [];
     Cli.upload_inventory_to_postgres := fun l => Cli.Returns (length l) |}.

Definition no_database : Cli.collaborators :=
  {| Cli.test_connection := Cli.Returns false;
     Cli.scrape_markov_inventory := Cli.Returns [receipt_x1];
     Cli.upload_inventory_to_postgres := fun l => Cli.Returns (length l) |}.

Definition connection_raises (r : Cli.raised) : Cli.collaborators :=
  {| Cli.test_connection := Cli.Raises r;
     Cli.scrape_markov_inventory := Cli.Returns [receipt_x1];
     Cli.upload_inventory_to_postgres := fun l => Cli.Returns (length l) |}.

Definition scrape_raises (r : Cli.raised) : Cli.collaborators :=
  {| Cli.test_connection := Cli.Returns true;
     Cli.scrape_markov_inventory := Cli.Raises r;
     Cli.upload_inventory_to_postgres := fun l => Cli.Returns (length l) |}.

Definition upload_raises (r : Cli.raised) : Cli.collaborators :=
  {| Cli.test_connection := Cli.Returns true;
     Cli.scrape_markov_inventory := Cli.Returns [receipt_x1];
     Cli.upload_inventory_to_postgres := fun _ => Cli.Raises r |}.

(** ** Notions the properties are stated with *)

(** A field that is absent or the empty string. *)
Definition blank (v : option string) : Prop := v = None \/ v = Some "".

(** A field that is blank or a string [float] accepts. *)
Definition readable (float_of_str : string -> option float) (v : option string) : Prop :=
  blank v \/ exists s f, v = Some s /\ float_of_str s = Some f.

(** The first candidate of a list with a given key. *)
Definition first_with_key (k : string) (cs : list Item.t) : option Item.t :=
  List.find (fun c => String.eqb k (Item.key c)) cs.

(** Two records that differ at most in [qty], [actual_value] and
    [actual_unit_cost]. *)
Definition same_descriptive_fields (a b : Item.t) : Prop :=
  Item.key a = Item.key b /\ Item.date a = Item.date b /\ Item.item a = Item.item b
  /\ Item.area a = Item.area b /\ Item.gl_group a = Item.gl_group b
  /\ Item.type a = Item.type b /\ Item.unit a = Item.unit b.

(** Every record sits under its own key, and no key occurs twice. *)
Definition well_keyed (aggregated : list (string * Item.t)) : Prop :=
  NoDup (map fst aggregated) /\ Forall (fun kr => Item.key kr.2 = kr.1) aggregated.

(** A payload in which one of the sections the transform reads is missing. *)
Inductive missing_section (p : payload) : Prop :=
  | missing_ItemData : ItemData p = None -> missing_section p
  | missing_DataStorageDTO i :
      ItemData p = Some i -> DataStorageDTO i = None -> missing_section p
  | missing_Slices : Slices (get_data_storage p) = None -> missing_section p
  | missing_Data s rest :
      Slices (get_data_storage p) = Some (s :: rest) -> Data s = None ->
      missing_section p
  | missing_EncodeMaps : EncodeMaps (get_data_storage p) = None -> missing_section p
  | missing_ViewModel : ViewModel p = None -> missing_section p
  | missing_Columns v : ViewModel p = Some v -> Columns v = None -> missing_section p.

(** The distinct keys of a list, each at the place of its first occurrence. *)
Definition distinct_in_order (ks : list string) : list string :=
  fold_left (fun seen k => if bool_decide (k ∈ seen) then seen else seen ++ [k]) ks [].

(** The candidates of a list that have a given key, in order. *)
Definition with_key (k : string) (cs : list Item.t) : list Item.t :=
  List.filter (fun c => String.eqb k (Item.key c)) cs.

(** [first.f + c1.f + c2.f + ...], summed from the left as the loop does. *)
Definition total (f : Item.t -> Num.t) (first : Item.t) (rest : list Item.t) : Num.t :=
  fold_left Num.add (map f rest) (f first).

(** The owner name a code is replaced by: the table's entry, or the code. *)
Definition owner_name (code : string) : string := default code (owner_map !! code).

(** What the dict holds under a key, given the candidates seen with it. *)
Definition summed (group : list Item.t) (r : Item.t) : Prop :=
  exists first rest,
    group = first :: rest /\
    Item.qty r = total Item.qty first rest /\
    Item.actual_value r = total Item.actual_value first rest /\
    (rest = [] -> r = first) /\
    (rest <> [] ->
       Num.truthy (Item.qty r) = true /\
       Item.actual_unit_cost r
       = Num.Float (Num.to_float (Item.actual_value r) / Num.to_float (Item.qty r))%float).

(** ** Library calls: [requests], [bs4], [psycopg2]

    The functions around the transform call libraries. A call is an event
    in a log, and what it does (return, raise) is given by a world; the
    functions are programs over a world and a state that holds the log.
    [print] and [requests.Session()] are taken to return. *)

Module Io.

(** The exceptions the programs tell apart. *)
Inductive error : Type :=
  | TokenNotFound                  (* ValueError, line 50 of the scraper *)
  | LoginFailed (status_code : Z)  (* ValueError, line 71 of the scraper *)
  | NoDatabaseUrl                  (* ValueError, line 31 of the uploader *)
  | HTTPError (status_code : Z)    (* raise_for_status *)
  | Builtin (e : exn)              (* raised by the repository's own code *)
  | TypeError                      (* None[0] *)
  | LibraryError (tag : string).   (* raised inside a library call *)

(** What propagates: an instance of [Exception], or an exception outside
    [Exception], such as [KeyboardInterrupt]. *)
Inductive raised : Type :=
  | Exception (e : error)
  | KeyboardInterrupt.

Inductive outcome (A : Type) : Type :=
  | Returns (a : A)
  | Raises (r : raised).

Arguments Returns {A} a.
Arguments Raises {A} r.

Definition prog (W S A : Type) : Type := W -> S -> outcome A * S.

#[global] Instance prog_ret {W S : Type} : MRet (prog W S) :=
  fun A a _ s => (Returns a, s).

#[global] Instance prog_bind {W S : Type} : MBind (prog W S) := fun A B k m w s =>
  match m w s with
  | (Returns a, s') => k a w s'
  | (Raises r, s') => (Raises r, s')
  end.

Definition raise {W S A : Type} (r : raised) : prog W S A := fun _ s => (Raises r, s).

(** [try: body except Exception as e: handler e]. *)
Definition try_except_Exception {W S A : Type} (body : prog W S A)
    (handler : error -> prog W S A) : prog W S A := fun w s =>
  match body w s with
  | (Raises (Exception e), s') => handler e w s'
  | other => other
  end.

(** [try: body except: handler], which catches everything. *)
Definition try_except {W S A : Type} (body handler : prog W S A) : prog W S A :=
  fun w s =>
    match body w s with
    | (Raises _, s') => handler w s'
    | other => other
    end.

(** [try: body finally: cleanup]: an exception of [cleanup] replaces the
    result of [body]. *)
Definition try_finally {W S A : Type} (body : prog W S A) (cleanup : prog W S unit)
  : prog W S A := fun w s =>
  match body w s with
  | (r, s') =>
      match cleanup w s' with
      | (Returns _, s'') => (r, s'')
      | (Raises x, s'') => (Raises x, s'')
      end
  end.

(** A value or exception of the transform, inside a program. *)
Definition lift {W S A : Type} (r : result A) : prog W S A :=
  match r with
  | Ok a => mret a
  | Raise e => raise (Exception (Builtin e))
  end.

End Io.

(** ** The scraper: [scrape_markov_inventory] *)

Module Scraper.
Import Io.

Record response : Set := {
  status_code : Z;
  text : string
}.

(** [session.get(url, params=...)] and
    [session.post(url, data=..., allow_redirects=False)]. *)
Inductive request : Set :=
  | Get (url : string) (params : list (string * string))
  | Post (url : string) (data : list (string * option string)).

Inductive event : Set :=
  | Sent (r : request)
  | Closed.

(** The network and the libraries: what a request does, given the events
    before it; the first [input] of the form named
    [__RequestVerificationToken], if any, with its [value] attribute, if it
    has one; [response.json()]; [session.close()]. *)
Record web : Type := {
  send : list event -> request -> outcome response;
  find_input : string -> option (option string);
  json : response -> outcome payload;
  close : list event -> outcome unit
}.

Definition base_url : string := "https://mcs.mar-kov.com/MCS_7-22-00_Dashboard".
Definition login_url : string :=
  base_url +:+ "/Identity/Account/Login?ReturnUrl=/100-SHOTTYSLLC".
Definition logout_url : string := base_url +:+ "/Identity/Account/Logout".
Definition dashboard_api_url : string :=
  base_url +:+ "/api/dashboard/data/DashboardItemGetAction".

Definition session_send (r : request) : prog web (list event) response :=
  fun w log => (send w log r, log ++ [Sent r]).

Definition session_close : prog web (list event) unit :=
  fun w log => (close w log, log ++ [Closed]).

(** [response.raise_for_status()]. *)
Definition raise_for_status (r : response) : prog web (list event) unit :=
  if (400 <=? status_code r)%Z && (status_code r <? 600)%Z
  then raise (Exception (HTTPError (status_code r)))
  else mret tt.

(** Lines 46-52: the token of the login form. *)
Definition verification_token_of (html : string) : prog web (list event) string :=
  fun w log =>
    match find_input w html with
    | Some (Some value) => (Returns value, log)
    | _ => (Raises (Exception TokenNotFound), log)
    end.

Definition response_json (r : response) : prog web (list event) payload :=
  fun w log => (json w r, log).

Section Scrape.

Variable json_loads : string -> option (list Z).
Variable float_of_str : string -> option float.
Variable date_now : string.

Variables (company email : string) (password : option string).
Variables (dashboard_id item_id : string).

Definition login_data (verification_token : string) : list (string * option string) :=
  [("Input.Company", Some company); ("Input.Email", Some email);
   ("Input.Password", password);
   ("__RequestVerificationToken", Some verification_token)].

Definition dashboard_params : list (string * string) :=
  [("dashboardId", dashboard_id); ("itemId", item_id)].

(** The [try] block (lines 40-95). *)
Definition scrape_try : prog web (list event) (list Item.t) :=
  login_form_response ← session_send (Get login_url []);
  _ ← raise_for_status login_form_response;
  verification_token ← verification_token_of (text login_form_response);
  login_response ← session_send (Post login_url (login_data verification_token));
  _ ← (if bool_decide (status_code login_response = 302%Z)
          || bool_decide (status_code login_response = 200%Z)
       then mret tt
       else raise (Exception (LoginFailed (status_code login_response))));
  dashboard_response ← session_send (Get dashboard_api_url dashboard_params);
  _ ← raise_for_status dashboard_response;
  dashboard_data ← response_json dashboard_response;
  transformed_data ←
    lift (transform_dashboard_data json_loads float_of_str date_now dashboard_data);
  _ ← session_send (Get logout_url []);
  mret transformed_data.

(** The handler (lines 97-104): one more logout, whatever it does, and the
    exception caught is raised again. *)
Definition scrape_except (e : error) : prog web (list event) (list Item.t) :=
  _ ← try_except (_ ← session_send (Get logout_url []); mret tt) (mret tt);
  raise (Exception e).

Definition scrape_markov_inventory : prog web (list event) (list Item.t) :=
  try_finally (try_except_Exception scrape_try scrape_except) session_close.

End Scrape.

End Scraper.

(** ** The uploader: [upload_inventory_to_postgres] and [test_connection] *)

Module Db.
Import Io.

(** A tuple of [records]: key, gl_group, type, qty, unit, actual_unit_cost,
    actual_value, date, area, item, the columns of the [INSERT]. *)
Definition row : Type :=
  string * option string * string * Num.t * string * Num.t * Num.t * string
  * option string * string.

Inductive event : Type :=
  | Connect (database_url : string)
  | Cursor
  | ExecuteValues (records : list row)
  | Execute (sql : string)
  | Fetchone
  | Commit
  | Rollback
  | CursorClose
  | ConnClose.

(** What the calls of [psycopg2] do. *)
Record db : Type := {
  psycopg2_connect : string -> outcome unit;
  conn_cursor : outcome unit;
  execute_values : list row -> outcome unit;
  cursor_execute : string -> outcome unit;
  cursor_fetchone : outcome (option (list string));
  conn_commit : outcome unit;
  conn_rollback : outcome unit;
  cursor_close : outcome unit;
  conn_close : outcome unit
}.

(** The log, and whether the variables [conn] and [cursor] are set. *)
Record frame : Type := {
  log : list event;
  conn : bool;
  cursor : bool
}.

Definition start : frame := {| log := []; conn := false; cursor := false |}.

Definition call {A : Type} (ev : event) (f : db -> outcome A) : prog db frame A :=
  fun w fr => (f w, {| log := log fr ++ [ev]; conn := conn fr; cursor := cursor fr |}).

Definition set_conn : prog db frame unit :=
  fun _ fr => (Returns tt, {| log := log fr; conn := true; cursor := cursor fr |}).

Definition set_cursor : prog db frame unit :=
  fun _ fr => (Returns tt, {| log := log fr; conn := conn fr; cursor := true |}).

(** [if conn: p] and [if cursor: p]. *)
Definition if_conn (p : prog db frame unit) : prog db frame unit :=
  fun w fr => if conn fr then p w fr else (Returns tt, fr).

Definition if_cursor (p : prog db frame unit) : prog db frame unit :=
  fun w fr => if cursor fr then p w fr else (Returns tt, fr).

(** Lines 46-57. *)
Definition record_of (item : Item.t) : row :=
  (Item.key item, Item.gl_group item, Item.type item, Item.qty item, Item.unit item,
   Item.actual_unit_cost item, Item.actual_value item, Item.date item, Item.area item,
   Item.item item).

(** [database_url], or the environment's [DATABASE_URL] when it is [None]. *)
Definition url_or_environ (environ : gmap string string) (database_url : option string)
  : option string :=
  match database_url with
  | None => environ !! "DATABASE_URL"
  | Some url => Some url
  end.

(** The [try] block of the uploader (lines 36-87). *)
Definition upload_try (inventory_data : list Item.t) (database_url : string)
  : prog db frame nat :=
  _ ← call (Connect database_url) (fun w => psycopg2_connect w database_url);
  _ ← set_conn;
  _ ← call Cursor conn_cursor;
  _ ← set_cursor;
  let records := map record_of inventory_data in
  _ ← call (ExecuteValues records) (fun w => execute_values w records);
  _ ← call Commit conn_commit;
  mret (length records).

(** Either handler (lines 89-99): roll back when connected, raise again. *)
Definition upload_except (e : error) : prog db frame nat :=
  _ ← if_conn (call Rollback conn_rollback);
  raise (Exception e).

(** Lines 101-105. *)
Definition upload_finally : prog db frame unit :=
  _ ← if_cursor (call CursorClose cursor_close);
  if_conn (call ConnClose conn_close).

Definition upload_inventory_to_postgres (environ : gmap string string)
    (inventory_data : list Item.t) (database_url : option string) : prog db frame nat :=
  match url_or_environ environ database_url with
  | Some url =>
      if String.eqb url "" then raise (Exception NoDatabaseUrl)
      else try_finally (try_except_Exception (upload_try inventory_data url) upload_except)
             upload_finally
  | None => raise (Exception NoDatabaseUrl)
  end.

(** The [try] block of [test_connection] (lines 124-132). *)
Definition test_connection_try (database_url : string) : prog db frame bool :=
  _ ← call (Connect database_url) (fun w => psycopg2_connect w database_url);
  _ ← call Cursor conn_cursor;
  _ ← call (Execute "SELECT version();") (fun w => cursor_execute w "SELECT version();");
  version ← call Fetchone cursor_fetchone;
  _ ← match version with
      | Some (_ :: _) => mret tt
      | Some [] => raise (Exception (Builtin IndexError))
      | None => raise (Exception TypeError)
      end;
  _ ← call CursorClose cursor_close;
  _ ← call ConnClose conn_close;
  mret true.

Definition test_connection (environ : gmap string string) (database_url : option string)
  : prog db frame bool :=
  match url_or_environ environ database_url with
  | Some url =>
      if String.eqb url "" then mret false
      else try_except_Exception (test_connection_try url) (fun _ => mret false)
  | None => mret false
  end.

End Db.

(** ** The run: [main] with the functions it imports *)

(** How [main]'s handlers see an outcome. *)
Definition seen_by_main {A S : Type} (r : Io.outcome A * S) : Cli.outcome A :=
  match r.1 with
  | Io.Returns a => Cli.Returns a
  | Io.Raises (Io.Exception _) => Cli.Raises Cli.Exception
  | Io.Raises Io.KeyboardInterrupt => Cli.Raises Cli.KeyboardInterrupt
  end.

Section Run.

Variable json_loads : string -> option (list Z).
Variable float_of_str : string -> option float.
Variable date_now : string.

(** The environment variables, the network, and the database as the
    connection test and as the upload find it. *)
Variable environ : gmap string string.
Variable w : Scraper.web.
Variable db_test db_upload : Db.db.

(** The call of line 30 of [main]. *)
Definition scrape_of_main : Io.outcome (list Item.t) * list Scraper.event :=
  Scraper.scrape_markov_inventory json_loads float_of_str date_now
    (default "" (environ !! "MARKOV_COMPANY")) (default "" (environ !! "MARKOV_EMAIL"))
    (environ !! "MARKOV_PASSWORD") "100-ShottysLLC" "gridDashboardItem6" w [].

Definition run_collaborators : Cli.collaborators :=
  {| Cli.test_connection := seen_by_main (Db.test_connection environ None db_test Db.start);
     Cli.scrape_markov_inventory := seen_by_main scrape_of_main;
     Cli.upload_inventory_to_postgres := fun inventory_data =>
       seen_by_main
         (Db.upload_inventory_to_postgres environ inventory_data None db_upload Db.start) |}.

End Run.

(** A program of the scraper that only sends requests: whatever the world
    and the log before, it appends [Sent] events and nothing else. *)
Definition only_sends {A : Type} (p : Io.prog Scraper.web (list Scraper.event) A) : Prop :=
  forall w log, exists sent, (p w log).2 = log ++ map Scraper.Sent sent.

(** A response [raise_for_status] lets through, and a login response the
    scraper accepts. *)
Definition http_ok (r : Scraper.response) : Prop :=
  ~ (400 <= Scraper.status_code r < 600)%Z.

Definition login_accepted (r : Scraper.response) : Prop :=
  Scraper.status_code r = 302%Z \/ Scraper.status_code r = 200%Z.

Section ScraperNotions.

Variables (company email : string) (password : option string).
Variables (dashboard_id item_id : string).
Variable w : Scraper.web.

(** The three requests of a session, in order. *)
Definition login_form_request : Scraper.request := Scraper.Get Scraper.login_url [].

Definition login_request (token : string) : Scraper.request :=
  Scraper.Post Scraper.login_url (Scraper.login_data company email password token).

Definition dashboard_request : Scraper.request :=
  Scraper.Get Scraper.dashboard_api_url (Scraper.dashboard_params dashboard_id item_id).

Definition logout_request : Scraper.request := Scraper.Get Scraper.logout_url [].

(** The world lets the scraper log in: the form comes back without an HTTP
    error and holds [token], and the login posted with it is accepted. *)
Definition logged_in (token : string) : Prop :=
  exists form login,
    Scraper.send w [] login_form_request = Io.Returns form /\ http_ok form /\
    Scraper.find_input w (Scraper.text form) = Some (Some token) /\
    Scraper.send w [Scraper.Sent login_form_request] (login_request token)
    = Io.Returns login /\
    login_accepted login.

(** After the login, the dashboard request comes back without an HTTP
    error and its body reads as [dashboard_data]. *)
Definition fetched (token : string) (dashboard_data : payload) : Prop :=
  logged_in token /\
  exists dashboard,
    Scraper.send w [Scraper.Sent login_form_request; Scraper.Sent (login_request token)]
      dashboard_request = Io.Returns dashboard /\
    http_ok dashboard /\
    Scraper.json w dashboard = Io.Returns dashboard_data.

End ScraperNotions.

(** ** Worlds of the closed examples *)

Definition answer (status : Z) (body : string) : Io.outcome Scraper.response :=
  Io.Returns {| Scraper.status_code := status; Scraper.text := body |}.

(** A server that serves the login form, answers the login with
    [login_status] and the dashboard request with a body that reads as
    [dashboard_data]; [logout] is what a logout request does. *)
Definition web_of (login_status : Z) (logout : Io.outcome Scraper.response)
    (dashboard_data : payload) : Scraper.web :=
  {| Scraper.send := fun _ r =>
       match r with
       | Scraper.Get url _ =>
           if String.eqb url Scraper.login_url
           then answer 200 "<input name=__RequestVerificationToken value=t0k>"
           else if String.eqb url Scraper.logout_url then logout
           else answer 200 "{}"
       | Scraper.Post _ _ => answer login_status ""
       end;
     Scraper.find_input := fun _ => Some (Some "t0k");
     Scraper.json := fun _ => Io.Returns dashboard_data;
     Scraper.close := fun _ => Io.Returns tt |}.

Definition good_web : Scraper.web := web_of 302 (answer 200 "") two_owners.

Definition rejecting_web : Scraper.web := web_of 401 (answer 200 "") two_owners.

Definition connection_lost : Io.error := Io.LibraryError "ConnectionError".

Definition flaky_logout_web : Scraper.web :=
  web_of 302 (Io.Raises (Io.Exception connection_lost)) two_owners.

(** The record the transform makes of [two_owners]. *)
Definition two_owners_record : Item.t :=
  Item.mk "X1-0-IMPACKFUL-2024-01-02" "2024-01-02" "X1" (Some "SHOTTYS")
    (Num.Float 15) (Num.Float 70) (Num.Float (70 / 15)) None "" "".

(** A database on which every call returns, one that rejects the batch,
    and one on which closing the connection fails. *)
Definition good_db : Db.db :=
  {| Db.psycopg2_connect := fun _ => Io.Returns tt;
     Db.conn_cursor := Io.Returns tt;
     Db.execute_values := fun _ => Io.Returns tt;
     Db.cursor_execute := fun _ => Io.Returns tt;
     Db.cursor_fetchone := Io.Returns (Some ["PostgreSQL 15.4"]);
     Db.conn_commit := Io.Returns tt;
     Db.conn_rollback := Io.Returns tt;
     Db.cursor_close := Io.Returns tt;
     Db.conn_close := Io.Returns tt |}.

Definition batch_rejected : Io.error := Io.LibraryError "DataError".

Definition rejecting_db : Db.db :=
  {| Db.psycopg2_connect := fun _ => Io.Returns tt;
     Db.conn_cursor := Io.Returns tt;
     Db.execute_values := fun _ => Io.Raises (Io.Exception batch_rejected);
     Db.cursor_execute := fun _ => Io.Returns tt;
     Db.cursor_fetchone := Io.Returns (Some ["PostgreSQL 15.4"]);
     Db.conn_commit := Io.Returns tt;
     Db.conn_rollback := Io.Returns tt;
     Db.cursor_close := Io.Returns tt;
     Db.conn_close := Io.Returns tt |}.

Definition close_failed : Io.error := Io.LibraryError "InterfaceError".

Definition unclosable_db : Db.db :=
  {| Db.psycopg2_connect := fun _ => Io.Returns tt;
     Db.conn_cursor := Io.Returns tt;
     Db.execute_values := fun _ => Io.Returns tt;
     Db.cursor_execute := fun _ => Io.Returns tt;
     Db.cursor_fetchone := Io.Returns (Some ["PostgreSQL 15.4"]);
     Db.conn_commit := Io.Returns tt;
     Db.conn_rollback := Io.Returns tt;
     Db.cursor_close := Io.Returns tt;
     Db.conn_close := Io.Raises (Io.Exception close_failed) |}.

Definition configured : gmap string string :=
  <["DATABASE_URL" := "postgresql://inventory"]>
    (<["MARKOV_COMPANY" := "Shottys"]> (<["MARKOV_EMAIL" := "ops@example.com"]> ∅)).

Definition unconfigured : gmap string string := ∅.

(** The scraper as [main] calls it in the [configured] environment. *)
Definition scrape_example (w : Scraper.web)
  : Io.outcome (list Item.t) * list Scraper.event :=
  scrape_of_main Json.loads PyFloat.of_str "2024-01-02" configured w.

Definition form_sent : Scraper.event := Scraper.Sent login_form_request.
Definition login_sent : Scraper.event :=
  Scraper.Sent (login_request "Shottys" "ops@example.com" None "t0k").
Definition dashboard_sent : Scraper.event :=
  Scraper.Sent (dashboard_request "100-ShottysLLC" "gridDashboardItem6").
Definition logout_sent : Scraper.event := Scraper.Sent logout_request.

(** A row key the decoding loop goes on with: it starts with a bracket and
    [json.loads] reads it. *)
Definition is_row (json_loads : string -> option (list Z)) (item_key : string) : bool :=
  startswith item_key "[" && bool_decide (is_Some (json_loads item_key)).

(** A decoded row without [Owner], as the last row of the decoding loop. *)
Definition ownerless : flat_row := row [("Date", "2024-01-01T00:00:00")].

(** The server that rejects the login, and the one with a failing logout,
    with a session whose [close] raises. *)
Definition unclosable (w : Scraper.web) : Scraper.web :=
  {| Scraper.send := Scraper.send w;
     Scraper.find_input := Scraper.find_input w;
     Scraper.json := Scraper.json w;
     Scraper.close := fun _ => Io.Raises (Io.Exception close_failed) |}.

(** * Properties *)

(** Runs [main] along the outcomes the context gives for the calls. *)
Ltac run_main :=
  unfold Cli.main, Cli.main_try, Cli.perform, mbind, Cli.prog_bind, mret, Cli.prog_ret;
  repeat (match goal with H : _ = _ |- _ => rewrite H; clear H end; simpl).

(** ** Loops *)

Lemma for_each_app {St A : Type} (body : St -> A -> result St) (l1 l2 : list A) (s : St) :
  for_each body (l1 ++ l2) s = (s' ← for_each body l1 s; for_each body l2 s').
Proof.
  revert s. induction l1 as [|x l1 IH]; intros s; simpl; [done|].
  destruct (body s x) as [s'|e]; simpl; [apply IH | done].
Qed.

(** A property of the elements gone through and the state, kept by every
    iteration that does not raise, holds when the loop ends without raising. *)
Lemma for_each_invariant {St A : Type} (body : St -> A -> result St)
    (P : list A -> St -> Prop) :
  (forall seen s x s', P seen s -> body s x = Ok s' -> P (seen ++ [x]) s') ->
  forall l seen s s', P seen s -> for_each body l s = Ok s' -> P (seen ++ l) s'.
Proof.
  intros Hstep. induction l as [|x l IH]; intros seen s s' HP Hrun; simpl in Hrun.
  - injection Hrun as <-. by rewrite app_nil_r.
  - destruct (body s x) as [s1|e] eqn:Hx; [|done]. simpl in Hrun.
    rewrite (assoc_L (++) seen [x] l : seen ++ x :: l = (seen ++ [x]) ++ l).
    eapply IH; [|done]. by eapply Hstep.
Qed.

Lemma enumerate_from_snoc {A : Type} (i : nat) (l : list A) (x : A) :
  enumerate_from i (l ++ [x]) = enumerate_from i l ++ [((i + length l)%nat, x)].
Proof.
  revert i. induction l as [|y l IH]; intros i; simpl.
  - by rewrite Nat.add_0_r.
  - rewrite IH. by replace (S i + length l)%nat with (i + S (length l))%nat by lia.
Qed.

(** ** Decoder *)

Section DecoderFacts.

Variable column_mappings : list column_mapping.
Variable encode_maps : gmap string (list string).

Lemma decode_row_nil : decode_row column_mappings encode_maps [] = ∅.
Proof. done. Qed.

(** The row of a longer array is the row of the shorter one with the last
    position decoded on top. *)
Lemma decode_row_snoc (item_arr : list Z) (value : Z) :
  decode_row column_mappings encode_maps (item_arr ++ [value])
  = decode_field column_mappings encode_maps
      (decode_row column_mappings encode_maps item_arr) (length item_arr, value).
Proof.
  unfold decode_row, enumerate.
  by rewrite enumerate_from_snoc, fold_left_app.
Qed.

(** What [l[i]] returns when it does not raise. *)
Lemma py_index_Some {A : Type} (l : list A) (i : Z) (x : A) :
  py_index l i = Some x <->
  (- Z.of_nat (length l) <= i < Z.of_nat (length l))%Z
  /\ l !! Z.to_nat (i mod Z.of_nat (length l)) = Some x.
Proof.
  unfold py_index. destruct (Z.leb_spec 0 i) as [Hi|Hi].
  - split.
    + intros Hx. pose proof (lookup_lt_Some _ _ _ Hx) as Hlt.
      split; [lia|]. rewrite Z.mod_small by lia. done.
    + intros [Hr Hx]. rewrite Z.mod_small in Hx by lia. done.
  - destruct (Z.leb_spec (- Z.of_nat (length l)) i) as [Hl|Hl].
    + assert (i mod Z.of_nat (length l) = Z.of_nat (length l) + i)%Z as ->.
      { symmetry. apply Z.mod_unique with (q := (-1)%Z); lia. }
      split; [intros Hx; split; [lia|done] | by intros [_ Hx]].
    + split; [done | intros [Hr _]; lia].
Qed.

(** The decoder sets a field exactly when the value is not [-1], the
    position has a column whose [dataId] has a dictionary, and the value
    is an index Python accepts for that dictionary: from minus its length
    up to its length, a negative one counting from the end. *)
Lemma resolve_Some (i : nat) (value : Z) (n : option string) (v : string) :
  resolve column_mappings encode_maps i value = Some (n, v) <->
  value <> (-1)%Z /\
  exists column data_id dict,
    column_mappings !! i = Some column /\ name column = n /\
    dataId column = Some data_id /\ encode_maps !! data_id = Some dict /\
    (- Z.of_nat (length dict) <= value < Z.of_nat (length dict))%Z /\
    dict !! Z.to_nat (value mod Z.of_nat (length dict)) = Some v.
Proof.
  unfold resolve. destruct (Z.eqb_spec value (-1)) as [->|Hne].
  { split; [done | by intros [? _]]. }
  destruct (column_mappings !! i) as [column|] eqn:Hc; cycle 1.
  { split; [done | by intros (_ & ? & ? & ? & ? & _)]. }
  destruct (dataId column) as [data_id|] eqn:Hd; cycle 1.
  { split; [done | intros (_ & ? & ? & ? & [= <-] & _ & ? & _); congruence]. }
  destruct (encode_maps !! data_id) as [dict|] eqn:He; cycle 1.
  { split; [done | intros (_ & ? & ? & ? & [= <-] & _ & ? & ? & _); congruence]. }
  destruct (Z.ltb_spec value (Z.of_nat (length dict))) as [Hlt|Hge].
  - destruct (py_index dict value) as [x|] eqn:Hx.
    + apply py_index_Some in Hx as [Hr Hx]. split.
      * intros [= <- <-]. split; [done|]. by exists column, data_id, dict.
      * intros (_ & c' & d' & l' & [= <-] & <- & ? & ? & _ & Hv).
        assert (d' = data_id) as -> by congruence.
        assert (l' = dict) as -> by congruence. congruence.
    + split; [done|].
      intros (_ & c' & d' & l' & [= <-] & _ & ? & ? & Hr & Hv).
      assert (d' = data_id) as -> by congruence.
      assert (l' = dict) as -> by congruence.
      assert (py_index dict value = Some v) as Hs by (by apply py_index_Some).
      congruence.
  - split; [done|].
    intros (_ & c' & d' & l' & [= <-] & _ & ? & ? & Hr & _).
    assert (d' = data_id) as -> by congruence.
    assert (l' = dict) as -> by congruence. lia.
Qed.

(** The sentinel never sets a field. *)
Lemma resolve_sentinel (i : nat) : resolve column_mappings encode_maps i (-1) = None.
Proof. done. Qed.

(** A row array of sentinels only decodes to the empty row. *)
Lemma decode_row_all_sentinels (item_arr : list Z) :
  Forall (fun value => value = (-1)%Z) item_arr ->
  decode_row column_mappings encode_maps item_arr = ∅.
Proof.
  induction item_arr as [|value item_arr IH] using rev_ind; [done|].
  intros [Hall Hlast]%Forall_app. rewrite decode_row_snoc, IH by done.
  apply Forall_singleton in Hlast as ->. done.
Qed.

(** C10. Positions are decoded in order and each assigns [obj[name]], so
    for a name several positions of a row array resolve to, the flat row
    holds the decoded value of the last such position: if position [i]
    resolves to name [n] with value [v] and no later position resolves to
    [n], the row maps [n] to [v]. *)
Theorem decode_row_last_position_wins
    (item_arr : list Z) (i : nat) (value : Z) (n : option string) (v : string) :
  item_arr !! i = Some value ->
  resolve column_mappings encode_maps i value = Some (n, v) ->
  (forall j value' v', i < j -> item_arr !! j = Some value' ->
     resolve column_mappings encode_maps j value' <> Some (n, v')) ->
  decode_row column_mappings encode_maps item_arr !! n = Some v.
Proof.
  induction item_arr as [|x item_arr IH] using rev_ind; [done|].
  intros Hi Hres Hlater. rewrite decode_row_snoc. unfold decode_field. simpl.
  destruct (decide (i = length item_arr)) as [->|Hne].
  - rewrite lookup_app_r, Nat.sub_diag in Hi by lia. injection Hi as ->.
    rewrite Hres. apply lookup_insert_eq.
  - assert (i < length item_arr) as Hlt.
    { apply lookup_lt_Some in Hi. rewrite length_app in Hi. simpl in Hi. lia. }
    rewrite lookup_app_l in Hi by done.
    assert (decode_row column_mappings encode_maps item_arr !! n = Some v) as Hrow.
    { apply IH; [done..|]. intros j value' v' Hj Hjv.
      apply Hlater; [done|]. rewrite lookup_app_l; [done|].
      by apply lookup_lt_Some in Hjv. }
    destruct (resolve column_mappings encode_maps (length item_arr) x)
      as [[n' v']|] eqn:Hx; [|done].
    rewrite lookup_insert_ne; [done|]. intros ->.
    apply (Hlater (length item_arr) x v'); [done| |done].
    by rewrite lookup_app_r, Nat.sub_diag by lia.
Qed.

(** A name no position resolves to is not a key of the flat row. *)
Lemma decode_row_unresolved (item_arr : list Z) (n : option string) :
  (forall j value' v', item_arr !! j = Some value' ->
     resolve column_mappings encode_maps j value' <> Some (n, v')) ->
  decode_row column_mappings encode_maps item_arr !! n = None.
Proof.
  induction item_arr as [|x item_arr IH] using rev_ind; [done|].
  intros Hno. rewrite decode_row_snoc. unfold decode_field. simpl.
  assert (decode_row column_mappings encode_maps item_arr !! n = None) as Hrow.
  { apply IH. intros j value' v' Hjv. apply Hno. rewrite lookup_app_l; [done|].
    by apply lookup_lt_Some in Hjv. }
  destruct (resolve column_mappings encode_maps (length item_arr) x)
    as [[n' v']|] eqn:Hx; [|done].
  rewrite lookup_insert_ne; [done|]. intros ->.
  apply (Hno (length item_arr) x v'); [|done].
  by rewrite lookup_app_r, Nat.sub_diag by lia.
Qed.

End DecoderFacts.

(** ** Normalizer *)

Section NormalizerFacts.

Variable float_of_str : string -> option float.
Variable date_now : string.



Lemma keep_row_no_date (o : flat_row) :
  get "Date" o = None -> keep_row date_now o = Ok false.
Proof. unfold keep_row. by intros ->. Qed.

Lemma keep_row_other_date (o : flat_row) (d : string) :
  get "Date" o = Some d -> startswith d date_now = false ->
  keep_row date_now o = Ok false.
Proof. unfold keep_row. by intros -> ->. Qed.

(** The filter reads [obj['Owner']] without testing for the key. *)
Lemma keep_row_no_owner (o : flat_row) (d : string) :
  get "Date" o = Some d -> startswith d date_now = true -> get "Owner" o = None ->
  keep_row date_now o = Raise KeyError.
Proof. unfold keep_row. by intros -> -> ->. Qed.

(** The filter never raises on a row that has an [Owner]. *)
Lemma keep_row_with_owner (o : flat_row) (owner : string) :
  get "Owner" o = Some owner -> exists b, keep_row date_now o = Ok b.
Proof.
  unfold keep_row. intros ->. destruct (get "Date" o) as [d|]; [|by eexists].
  destruct (startswith d date_now); by eexists.
Qed.

(** Lines 185-186 on a blank field, on a number and on any other text. *)
Lemma number_field_blank (v : option string) :
  blank v -> number_field float_of_str v = Ok Num.Int0.
Proof. by intros [->| ->]. Qed.

Lemma truthy_field_nonempty (s : string) : s <> "" -> truthy_field (Some s) = true.
Proof. intros Hs. simpl. by destruct (String.eqb_spec s ""). Qed.

Lemma number_field_parsed (v : option string) (s : string) (f : float) :
  v = Some s -> s <> "" -> float_of_str s = Some f ->
  number_field float_of_str v = Ok (Num.Float f).
Proof.
  intros -> Hs Hf. unfold number_field. by rewrite truthy_field_nonempty, Hf.
Qed.

Lemma number_field_rejected (v : option string) (s : string) :
  v = Some s -> s <> "" -> float_of_str s = None ->
  number_field float_of_str v = Raise ValueError.
Proof.
  intros -> Hs Hf. unfold number_field. by rewrite truthy_field_nonempty, Hf.
Qed.

Lemma number_field_readable (v : option string) :
  readable float_of_str v -> exists x, number_field float_of_str v = Ok x.
Proof.
  intros [Hb|(s & f & -> & Hf)].
  - exists Num.Int0. by apply number_field_blank.
  - destruct (decide (s = "")) as [->|Hs].
    + by exists Num.Int0.
    + exists (Num.Float f). by apply number_field_parsed with s.
Qed.

(** The guarded division of lines 187-189 never raises. *)
Lemma unit_cost_guarded (qty actual_value : Num.t) :
  exists cost,
    (if Num.truthy qty && Num.truthy actual_value
     then Num.div actual_value qty else Ok Num.Int0) = Ok cost.
Proof.
  unfold Num.div. destruct (Num.truthy qty); simpl; [|by eexists].
  destruct (Num.truthy actual_value); by eexists.
Qed.

(** The candidate of a row, once [obj['Owner']] and both numbers are read. *)
Lemma candidate_Ok (last : option flat_row) (d : flat_row) (owner : string)
    (qty actual_value : Num.t) :
  last_owner last = Ok owner ->
  number_field float_of_str (get "Qty" d) = Ok qty ->
  number_field float_of_str (get "ActualValue" d) = Ok actual_value ->
  exists c, candidate float_of_str last d = Ok c /\
    Item.qty c = qty /\ Item.actual_value c = actual_value /\
    Item.area c = get "Owner" d /\
    Item.key c = default "" (get "ItemCode" d) +:+ "-" +:+ default "0" (get "Sublot" d)
                 +:+ "-" +:+ owner +:+ "-" +:+ first10 (default "" (get "Date" d)).
Proof.
  intros Ho Hq Hv. unfold candidate. rewrite Ho, Hq, Hv. simpl.
  destruct (unit_cost_guarded qty actual_value) as [cost ->]. simpl.
  by eexists.
Qed.

(** The composite key of a candidate: item code, sublot (["0"] when the
    row has none), the [Owner] of the row the decoding loop saw last, and
    the day of the row. *)
Lemma candidate_key (last : option flat_row) (d : flat_row) (c : Item.t) :
  candidate float_of_str last d = Ok c ->
  exists owner, last_owner last = Ok owner /\
    Item.area c = get "Owner" d /\
    Item.key c = default "" (get "ItemCode" d) +:+ "-" +:+ default "0" (get "Sublot" d)
                 +:+ "-" +:+ owner +:+ "-" +:+ first10 (default "" (get "Date" d)).
Proof.
  unfold candidate. destruct (last_owner last) as [owner|]; [|done]. simpl.
  destruct (number_field float_of_str (get "Qty" d)) as [qty|]; [|done]. simpl.
  destruct (number_field float_of_str (get "ActualValue" d)) as [av|]; [|done]. simpl.
  destruct (unit_cost_guarded qty av) as [cost ->]. simpl.
  intros [= <-]. by exists owner.
Qed.

(** C3, as the code has it. A [Qty] or [ActualValue] that is absent or the
    empty string makes lines 185-186 evaluate to [0] without raising; a
    non-empty string that [float] rejects never resolves to [0]: the row
    yields no candidate, its shaping raises. When line 183 finds the [Owner]
    of the last decoded row, the row with a blank field is shaped into a
    candidate with [0] in that field (the other of the two fields being
    blank or a number), and the row with a rejected field raises
    [ValueError]. *)
Theorem candidate_numbers (last : option flat_row) (d : flat_row) :
  (blank (get "Qty" d) -> number_field float_of_str (get "Qty" d) = Ok Num.Int0)
  /\ (blank (get "ActualValue" d) ->
      number_field float_of_str (get "ActualValue" d) = Ok Num.Int0)
  /\ (forall s, get "Qty" d = Some s \/ get "ActualValue" d = Some s ->
      s <> "" -> float_of_str s = None ->
      exists e, candidate float_of_str last d = Raise e)
  /\ (forall owner, last_owner last = Ok owner ->
      (blank (get "Qty" d) -> readable float_of_str (get "ActualValue" d) ->
         exists c, candidate float_of_str last d = Ok c /\ Item.qty c = Num.Int0)
      /\ (readable float_of_str (get "Qty" d) -> blank (get "ActualValue" d) ->
         exists c, candidate float_of_str last d = Ok c /\ Item.actual_value c = Num.Int0)
      /\ (forall s, get "Qty" d = Some s -> s <> "" -> float_of_str s = None ->
         candidate float_of_str last d = Raise ValueError)
      /\ (readable float_of_str (get "Qty" d) ->
         forall s, get "ActualValue" d = Some s -> s <> "" -> float_of_str s = None ->
         candidate float_of_str last d = Raise ValueError)).
Proof.
  split_and!.
  - apply number_field_blank.
  - apply number_field_blank.
  - intros s Hs Hne Hf. unfold candidate.
    destruct (last_owner last) as [owner|e]; simpl; [|by exists e].
    destruct Hs as [Hs|Hs].
    + rewrite (number_field_rejected _ s Hs Hne Hf). by exists ValueError.
    + destruct (number_field float_of_str (get "Qty" d)) as [q|e]; simpl; [|by exists e].
      rewrite (number_field_rejected _ s Hs Hne Hf). by exists ValueError.
  - intros owner Ho. split_and!.
    + intros Hq [av Hv]%number_field_readable.
      destruct (candidate_Ok last d owner Num.Int0 av Ho) as (c & Hc & Hqty & _);
        [by apply number_field_blank | done |].
      by exists c.
    + intros [q Hq]%number_field_readable Hv.
      destruct (candidate_Ok last d owner q Num.Int0 Ho Hq) as (c & Hc & _ & Hav & _);
        [by apply number_field_blank |].
      by exists c.
    + intros s Hs Hne Hf. unfold candidate.
      by rewrite Ho, (number_field_rejected _ s Hs Hne Hf).
    + intros [q Hq]%number_field_readable s Hs Hne Hf. unfold candidate.
      by rewrite Ho, Hq, (number_field_rejected _ s Hs Hne Hf).
Qed.

End NormalizerFacts.

(** ** Insertion-ordered dicts *)

Section DictFacts.
Context {V : Type}.
Implicit Types (d : list (string * V)) (k : string) (v : V).

Lemma dict_get_None k d : dict_get k d = None <-> k ∉ map fst d.
Proof.
  induction d as [|[k' v'] d IH]; simpl.
  - split; [intros _; apply not_elem_of_nil | done].
  - rewrite not_elem_of_cons. destruct (String.eqb_spec k k') as [->|Hne].
    + split; [done | by intros [? _]].
    + rewrite IH. tauto.
Qed.

Lemma dict_get_Some_elem k d v : dict_get k d = Some v -> (k, v) ∈ d.
Proof.
  induction d as [|[k' v'] d IH]; simpl; [done|].
  destruct (String.eqb_spec k k') as [->|Hne].
  - intros [= ->]. apply list_elem_of_here.
  - intros H. apply list_elem_of_further. by apply IH.
Qed.

Lemma dict_get_elem k d v : NoDup (map fst d) -> (k, v) ∈ d -> dict_get k d = Some v.
Proof.
  induction d as [|[k' v'] d IH]; simpl.
  - by intros _ ?%elem_of_nil.
  - intros [Hk Hd]%NoDup_cons [[= -> ->]|Hin]%elem_of_cons.
    + by rewrite String.eqb_refl.
    + destruct (String.eqb_spec k k') as [->|Hne]; [|by apply IH].
      exfalso. apply Hk. change k' with (fst (k', v)). by apply list_elem_of_fmap_2.
Qed.

Lemma dict_get_set k k' v d :
  dict_get k' (dict_set k v d) = if String.eqb k' k then Some v else dict_get k' d.
Proof.
  induction d as [|[k1 v1] d IH]; simpl.
  - by destruct (String.eqb k' k).
  - destruct (String.eqb_spec k k1) as [->|Hne]; simpl.
    + by destruct (String.eqb k' k1).
    + rewrite IH. destruct (String.eqb_spec k' k1) as [->|Hne']; [|done].
      by destruct (String.eqb_spec k1 k).
Qed.

Lemma dict_set_new k v d : dict_get k d = None -> dict_set k v d = d ++ [(k, v)].
Proof.
  induction d as [|[k' v'] d IH]; simpl; [done|].
  destruct (String.eqb k k'); [done|]. intros H. by rewrite IH.
Qed.

Lemma dict_set_keys k v d :
  map fst (dict_set k v d)
  = if dict_get k d is Some _ then map fst d else map fst d ++ [k].
Proof.
  induction d as [|[k' v'] d IH]; simpl; [done|].
  destruct (String.eqb k k'); simpl; [done|].
  rewrite IH. by destruct (dict_get k d).
Qed.

Lemma dict_set_NoDup k v d : NoDup (map fst d) -> NoDup (map fst (dict_set k v d)).
Proof.
  intros Hd. rewrite dict_set_keys. destruct (dict_get k d) eqn:Hk; [done|].
  apply NoDup_app. split_and!; [done| |apply NoDup_singleton].
  intros x Hx ->%list_elem_of_singleton. by apply dict_get_None in Hk.
Qed.

Lemma dict_set_Forall (P : string * V -> Prop) k v d :
  Forall P d -> P (k, v) -> Forall P (dict_set k v d).
Proof.
  intros Hd Hkv. induction Hd as [|[k' v'] d Hx Hd IH]; simpl.
  - by apply Forall_singleton.
  - destruct (String.eqb_spec k k') as [->|Hne]; by constructor.
Qed.

End DictFacts.

(** ** Aggregator *)

Lemma set_fields_same (acc : Item.t) (q v c : Num.t) :
  same_descriptive_fields acc
    (Item.set_actual_unit_cost c (Item.set_actual_value v (Item.set_qty q acc))).
Proof. by repeat split. Qed.

Lemma same_descriptive_fields_refl (a : Item.t) : same_descriptive_fields a a.
Proof. by repeat split. Qed.

Lemma same_descriptive_fields_trans (a b c : Item.t) :
  same_descriptive_fields a b -> same_descriptive_fields b c ->
  same_descriptive_fields a c.
Proof.
  unfold same_descriptive_fields. intros (?&?&?&?&?&?&?) (?&?&?&?&?&?&?).
  split_and!; congruence.
Qed.

(** A later candidate with a key already seen: the quantities and values
    are summed and the unit cost is their quotient, provided the summed
    quantity is not zero. *)
Lemma aggregate_step_merge (aggregated : list (string * Item.t)) (item acc : Item.t) :
  dict_get (Item.key item) aggregated = Some acc ->
  let qty := Num.add (Item.qty acc) (Item.qty item) in
  let actual_value := Num.add (Item.actual_value acc) (Item.actual_value item) in
  Num.truthy qty = true ->
  aggregate_step aggregated item
  = Ok (dict_set (Item.key item)
          (Item.set_actual_unit_cost
             (Num.Float (Num.to_float actual_value / Num.to_float qty)%float)
             (Item.set_actual_value actual_value (Item.set_qty qty acc)))
          aggregated).
Proof.
  intros Hacc qty actual_value Hqty. unfold aggregate_step. rewrite Hacc. simpl.
  fold qty. fold actual_value. unfold Num.div. by rewrite Hqty.
Qed.

(** The division of line 210 has no guard: a summed quantity of zero raises. *)
Lemma aggregate_step_zero_qty (aggregated : list (string * Item.t)) (item acc : Item.t) :
  dict_get (Item.key item) aggregated = Some acc ->
  Num.truthy (Num.add (Item.qty acc) (Item.qty item)) = false ->
  aggregate_step aggregated item = Raise ZeroDivisionError.
Proof.
  intros Hacc Hqty. unfold aggregate_step. rewrite Hacc. simpl.
  unfold Num.div. by rewrite Hqty.
Qed.

Lemma aggregate_step_first (aggregated : list (string * Item.t)) (item : Item.t) :
  dict_get (Item.key item) aggregated = None ->
  aggregate_step aggregated item = Ok (aggregated ++ [(Item.key item, item)]).
Proof.
  intros Hnone. unfold aggregate_step. rewrite Hnone. by rewrite dict_set_new.
Qed.

(** What an iteration that does not raise does to the dict. *)
Lemma aggregate_step_Ok (aggregated aggregated' : list (string * Item.t)) (item : Item.t) :
  aggregate_step aggregated item = Ok aggregated' ->
  exists r, aggregated' = dict_set (Item.key item) r aggregated /\
    Item.key r = match dict_get (Item.key item) aggregated with
                 | Some acc => Item.key acc
                 | None => Item.key item
                 end /\
    match dict_get (Item.key item) aggregated with
    | Some acc => same_descriptive_fields acc r
    | None => r = item
    end.
Proof.
  unfold aggregate_step. destruct (dict_get (Item.key item) aggregated) as [acc|].
  - simpl. destruct (Num.div _ _) as [cost|]; [|done]. simpl.
    intros [= <-]. eexists. split; [done|]. split; [done|]. apply set_fields_same.
  - intros [= <-]. by exists item.
Qed.

Lemma well_keyed_get (aggregated : list (string * Item.t)) (k : string) (r : Item.t) :
  well_keyed aggregated -> dict_get k aggregated = Some r -> Item.key r = k.
Proof.
  intros [_ Hk] Hr%dict_get_Some_elem.
  by apply (proj1 (Forall_forall _ _) Hk (k, r)).
Qed.

Lemma aggregate_step_well_keyed (aggregated aggregated' : list (string * Item.t))
    (item : Item.t) :
  well_keyed aggregated -> aggregate_step aggregated item = Ok aggregated' ->
  well_keyed aggregated'.
Proof.
  intros Hwk (r & -> & Hkey & _)%aggregate_step_Ok. split.
  - apply dict_set_NoDup, Hwk.
  - apply dict_set_Forall; [apply Hwk|]. simpl. rewrite Hkey.
    destruct (dict_get (Item.key item) aggregated) as [acc|] eqn:Hacc; [|done].
    by apply well_keyed_get with aggregated.
Qed.

Lemma aggregate_loop_well_keyed (items : list Item.t) (aggregated : list (string * Item.t)) :
  for_each aggregate_step items [] = Ok aggregated -> well_keyed aggregated.
Proof.
  intros Hrun.
  refine (for_each_invariant aggregate_step (fun _ a => well_keyed a) _
            items [] [] aggregated _ Hrun).
  - intros _ a x a' Ha Hx. by apply aggregate_step_well_keyed with a x.
  - split; [apply NoDup_nil_2 | apply Forall_nil_2].
Qed.

(** Aggregating records that already have distinct keys stores each of them
    as it is, in order. *)
Lemma aggregate_loop_distinct (rest aggregated : list (string * Item.t)) :
  well_keyed (aggregated ++ rest) ->
  for_each aggregate_step (map snd rest) aggregated = Ok (aggregated ++ rest).
Proof.
  revert aggregated. induction rest as [|[k r] rest IH]; intros aggregated Hwk; simpl.
  - by rewrite app_nil_r.
  - destruct Hwk as [Hnd Hkeys].
    assert (Item.key r = k) as Hk.
    { apply Forall_app in Hkeys as [_ Hrest]. by apply Forall_cons in Hrest as [? _]. }
    assert (dict_get k aggregated = None) as Hnew.
    { apply dict_get_None. rewrite map_app in Hnd. apply NoDup_app in Hnd as (_ & Hdisj & _).
      intros Hin. apply (Hdisj k Hin). simpl. apply list_elem_of_here. }
    rewrite aggregate_step_first by (by rewrite Hk). simpl. rewrite Hk.
    rewrite (IH (aggregated ++ [(k, r)])); rewrite <- (assoc_L (++)); [done|].
    by split.
Qed.

(** C7. Aggregating the output of [aggregate] again returns that output, in
    the same order: its records have distinct keys, so each is a first
    occurrence. *)
Theorem aggregate_idempotent (candidates out : list Item.t) :
  aggregate candidates = Ok out -> aggregate out = Ok out.
Proof.
  unfold aggregate. destruct (for_each aggregate_step candidates []) as [aggregated|] eqn:Hrun;
    [|done].
  simpl. intros [= <-]. apply aggregate_loop_well_keyed in Hrun.
  unfold dict_values. by rewrite (aggregate_loop_distinct aggregated []).
Qed.

Lemma first_with_key_snoc (k : string) (seen : list Item.t) (c : Item.t) :
  first_with_key k (seen ++ [c])
  = match first_with_key k seen with
    | Some f => Some f
    | None => if String.eqb k (Item.key c) then Some c else None
    end.
Proof.
  unfold first_with_key. induction seen as [|x seen IH]; simpl; [done|].
  by destruct (String.eqb k (Item.key x)).
Qed.

Lemma first_with_key_elem (k : string) (cs : list Item.t) (c : Item.t) :
  c ∈ cs -> Item.key c = k ->
  exists f, first_with_key k cs = Some f /\ Item.key f = k.
Proof.
  unfold first_with_key. intros Hin <-. induction Hin as [c cs|c x cs Hin IH]; simpl.
  - rewrite String.eqb_refl. by exists c.
  - destruct (String.eqb_spec (Item.key c) (Item.key x)) as [Heq|Hne]; [by exists x | done].
Qed.

(** The loop invariant of the aggregator: under every key the dict holds the
    first candidate seen with that key, up to the three numeric fields. *)
Lemma aggregate_loop_first_seen (candidates : list Item.t)
    (aggregated : list (string * Item.t)) :
  for_each aggregate_step candidates [] = Ok aggregated ->
  forall k, option_Forall2 same_descriptive_fields
              (first_with_key k candidates) (dict_get k aggregated).
Proof.
  intros Hrun.
  refine (for_each_invariant aggregate_step
            (fun seen a => forall k, option_Forall2 same_descriptive_fields
                                       (first_with_key k seen) (dict_get k a))
            _ candidates [] [] aggregated _ Hrun); [|constructor].
  intros seen a x a' Hinv (r & -> & _ & Hr)%aggregate_step_Ok k.
  rewrite first_with_key_snoc, dict_get_set.
  destruct (String.eqb_spec k (Item.key x)) as [->|Hne].
  - specialize (Hinv (Item.key x)).
    destruct Hinv as [f acc Hsame|]; [|subst r]; constructor.
    + by apply same_descriptive_fields_trans with acc.
    + apply same_descriptive_fields_refl.
  - specialize (Hinv k). by destruct Hinv; constructor.
Qed.

(** C8. For every key occurring among the candidates, the output holds
    exactly one record with that key, and it agrees with the first candidate
    seen with that key on [key], [date], [item], [area], [gl_group], [type]
    and [unit]: later candidates change [qty], [actual_value] and
    [actual_unit_cost] only. *)
Theorem aggregate_keeps_first_seen_fields (candidates out : list Item.t) (c : Item.t) :
  aggregate candidates = Ok out ->
  c ∈ candidates ->
  exists first r,
    first_with_key (Item.key c) candidates = Some first /\
    r ∈ out /\ Item.key r = Item.key c /\
    same_descriptive_fields first r /\
    (forall r', r' ∈ out -> Item.key r' = Item.key c -> r' = r).
Proof.
  unfold aggregate.
  destruct (for_each aggregate_step candidates []) as [aggregated|] eqn:Hrun; [|done].
  simpl. intros [= <-] Hc.
  pose proof (aggregate_loop_well_keyed _ _ Hrun) as Hwk.
  pose proof (aggregate_loop_first_seen _ _ Hrun (Item.key c)) as Hinv.
  destruct (first_with_key_elem (Item.key c) candidates c Hc eq_refl) as (first & Hfirst & Hkey).
  rewrite Hfirst in Hinv. inversion Hinv as [? r Hsame Heq1 Heq2|]; subst.
  symmetry in Heq2. exists first, r. split_and!; [done| | |done|].
  - unfold dict_values. change r with (snd (Item.key c, r)).
    by apply list_elem_of_fmap_2, dict_get_Some_elem.
  - by apply well_keyed_get with aggregated.
  - intros r' [[k' r''] [-> Hin]]%list_elem_of_fmap Hk'. simpl in *.
    assert (k' = Item.key c) as ->.
    { destruct Hwk as [_ Hkeys].
      pose proof (proj1 (Forall_forall _ _) Hkeys _ Hin) as Hk. simpl in Hk. congruence. }
    apply dict_get_elem in Hin; [|apply Hwk]. congruence.
Qed.

(** ** The transform on incomplete payloads *)

Section TransformFacts.

Variable json_loads : string -> option (list Z).
Variable float_of_str : string -> option float.
Variable date_now : string.

Lemma resolve_no_columns (encode_maps : gmap string (list string)) (i : nat) (value : Z) :
  resolve [] encode_maps i value = None.
Proof. unfold resolve. by destruct (value =? -1)%Z. Qed.

Lemma resolve_no_maps (column_mappings : list column_mapping) (i : nat) (value : Z) :
  resolve column_mappings ∅ i value = None.
Proof.
  unfold resolve. destruct (value =? -1)%Z; [done|].
  destruct (column_mappings !! i) as [column|]; [|done].
  destruct (dataId column) as [data_id|]; [|done].
  by rewrite lookup_empty.
Qed.

Section NothingResolves.

Variable column_mappings : list column_mapping.
Variable encode_maps : gmap string (list string).
Hypothesis nothing : forall i value, resolve column_mappings encode_maps i value = None.

Lemma decode_row_empty (item_arr : list Z) :
  decode_row column_mappings encode_maps item_arr = ∅.
Proof.
  induction item_arr as [|value item_arr IH] using rev_ind; [done|].
  rewrite decode_row_snoc, IH. unfold decode_field. by rewrite nothing.
Qed.

Lemma decode_step_keeps_nothing (st : decoded) (item_key : string) :
  exists st', decode_step json_loads date_now column_mappings encode_maps st item_key
              = Ok st' /\ output st' = output st.
Proof.
  unfold decode_step. destruct (negb (startswith item_key "[")); [by exists st|].
  destruct (json_loads item_key) as [item_arr|]; [|by exists st].
  rewrite decode_row_empty. by eexists.
Qed.

Lemma decode_rows_keep_nothing (slices_data : list string) (st : decoded) :
  exists st', for_each (decode_step json_loads date_now column_mappings encode_maps)
                slices_data st = Ok st' /\ output st' = output st.
Proof.
  revert st. induction slices_data as [|item_key slices_data IH]; intros st; simpl.
  - by exists st.
  - destruct (decode_step_keeps_nothing st item_key) as (st1 & -> & <-). apply IH.
Qed.

End NothingResolves.

(** No row, no record. *)
Lemma transform_no_rows (dashboard_data : payload) :
  get_slices_data (get_data_storage dashboard_data) = Ok [] ->
  transform_dashboard_data json_loads float_of_str date_now dashboard_data = Ok [].
Proof.
  intros Hs. unfold transform_dashboard_data, inventory_items. by rewrite Hs.
Qed.

(** No field resolved, no row kept. *)
Lemma transform_nothing_resolves (dashboard_data : payload) :
  (forall i value,
     resolve (get_column_mappings dashboard_data)
       (get_encode_maps (get_data_storage dashboard_data)) i value = None) ->
  transform_dashboard_data json_loads float_of_str date_now dashboard_data
  = match Slices (get_data_storage dashboard_data) with
    | Some [] => Raise IndexError
    | _ => Ok []
    end.
Proof.
  intros Hnone. unfold transform_dashboard_data, inventory_items.
  assert (forall slices_data,
    (items ← (st ← decode_rows json_loads date_now (get_column_mappings dashboard_data)
                     (get_encode_maps (get_data_storage dashboard_data)) slices_data;
              normalize float_of_str st);
     aggregate items) = Ok []) as Hrows.
  { intros slices_data. unfold decode_rows.
    destruct (decode_rows_keep_nothing _ _ Hnone slices_data
                {| output := []; obj := None |}) as (st' & -> & Hout).
    simpl. unfold normalize. by rewrite Hout. }
  unfold get_slices_data.
  destruct (Slices (get_data_storage dashboard_data)) as [[|s rest]|]; [done|..].
  - apply (Hrows (default [] (Data s))).
  - apply (Hrows []).
Qed.

(** C5, as the code has it, on a payload whose sections have their
    expected types where they are present. A section whose key is absent is
    replaced by an empty default and the transform returns the empty list;
    it does not raise for it. With a section absent and [Slices] present as
    an empty list, [[0]] raises [IndexError]. *)
Theorem missing_section_gives_no_records (dashboard_data : payload) :
  missing_section dashboard_data ->
  transform_dashboard_data json_loads float_of_str date_now dashboard_data
  = match Slices (get_data_storage dashboard_data) with
    | Some [] => Raise IndexError
    | _ => Ok []
    end.
Proof.
  intros [Hi|i Hi Hd|Hs|s rest Hs Hd|He|Hv|v Hv Hc].
  - rewrite transform_no_rows; unfold get_slices_data, get_data_storage;
      by rewrite Hi.
  - rewrite transform_no_rows; unfold get_slices_data, get_data_storage;
      rewrite Hi; simpl; by rewrite Hd.
  - rewrite transform_no_rows; unfold get_slices_data; by rewrite Hs.
  - rewrite transform_no_rows; unfold get_slices_data; rewrite Hs; simpl;
      by rewrite ?Hd.
  - apply transform_nothing_resolves. intros i value.
    unfold get_encode_maps. rewrite He. apply resolve_no_maps.
  - apply transform_nothing_resolves. intros i value.
    unfold get_column_mappings. rewrite Hv. apply resolve_no_columns.
  - apply transform_nothing_resolves. intros i value.
    unfold get_column_mappings. rewrite Hv. simpl. rewrite Hc. apply resolve_no_columns.
Qed.

End TransformFacts.

(** ** The command-line driver *)

(** C9. The exit code of [main]. It is 0 when the records are uploaded, and
    0 when nothing was scraped, in which case no upload is attempted; 1 when
    the connection test fails, in which case nothing is scraped, and 1 when a
    call raises an exception; 130 when a call is interrupted by the user. *)
Theorem main_exit_code (w : Cli.collaborators) :
  (forall inventory_data n,
     Cli.test_connection w = Cli.Returns true ->
     Cli.scrape_markov_inventory w = Cli.Returns inventory_data ->
     inventory_data <> [] ->
     Cli.upload_inventory_to_postgres w inventory_data = Cli.Returns n ->
     Cli.main w = (0%Z, [Cli.TestConnection; Cli.Scrape; Cli.Upload inventory_data]))
  /\ (Cli.test_connection w = Cli.Returns true ->
      Cli.scrape_markov_inventory w = Cli.Returns [] ->
      Cli.main w = (0%Z, [Cli.TestConnection; Cli.Scrape]))
  /\ (Cli.test_connection w = Cli.Returns false ->
      Cli.main w = (1%Z, [Cli.TestConnection]))
  /\ (forall r,
      Cli.test_connection w = Cli.Raises r ->
      Cli.main w = (match r with Cli.Exception => 1 | Cli.KeyboardInterrupt => 130 end%Z,
                    [Cli.TestConnection]))
  /\ (forall r,
      Cli.test_connection w = Cli.Returns true ->
      Cli.scrape_markov_inventory w = Cli.Raises r ->
      Cli.main w = (match r with Cli.Exception => 1 | Cli.KeyboardInterrupt => 130 end%Z,
                    [Cli.TestConnection; Cli.Scrape]))
  /\ (forall inventory_data r,
      Cli.test_connection w = Cli.Returns true ->
      Cli.scrape_markov_inventory w = Cli.Returns inventory_data ->
      inventory_data <> [] ->
      Cli.upload_inventory_to_postgres w inventory_data = Cli.Raises r ->
      Cli.main w = (match r with Cli.Exception => 1 | Cli.KeyboardInterrupt => 130 end%Z,
                    [Cli.TestConnection; Cli.Scrape; Cli.Upload inventory_data])).
Proof.
  split_and!.
  - intros [|x l] n Ht Hs Hne Hu; [done|]. by run_main.
  - intros Ht Hs. by run_main.
  - intros Ht. by run_main.
  - intros [] Ht; by run_main.
  - intros [] Ht Hs; by run_main.
  - intros [|x l] [] Ht Hs Hne Hu; by run_main.
Qed.

(** ** Closed examples *)

(** The reference readers on the texts the examples use. *)
Example loads_row_key : Json.loads "[0,3,-1,7]" = Some [0; 3; -1; 7]%Z.
Proof. vm_compute. reflexivity. Qed.

Example loads_not_a_row : Json.loads "[0,3" = None.
Proof. vm_compute. reflexivity. Qed.

Example float_of_number : PyFloat.of_str "-5" = Some (-5)%float.
Proof. vm_compute. reflexivity. Qed.

Example float_of_text : PyFloat.of_str "abc" = None.
Proof. vm_compute. reflexivity. Qed.

(** Scenario A of the specification: two rows of one key are merged. *)
Example scenario_A :
  transform_on_2024_01_03 (stock ["[0,0,0,0,0]"; "[0,0,0,1,1]"])
  = Ok [ Item.mk "X1-0-SHOTTYS-2024-01-02" "2024-01-02" "X1" (Some "SHOTTYS")
           (Num.Float 15) (Num.Float 70) (Num.Float (70 / 15)) None "" "" ].
Proof. vm_compute. reflexivity. Qed.

(** C1. The key is built from [obj['Owner']], the owner of the row the
    decoding loop saw last, not from the row's own: of two kept rows owned by
    SHOTTYS and IMPACKFUL, the candidate of the first has area SHOTTYS and a
    key that says IMPACKFUL, and the two rows are merged into one record. *)
Theorem composite_key_takes_owner_of_last_row :
  items_on_2024_01_03 two_owners
  = Ok [ Item.mk "X1-0-IMPACKFUL-2024-01-02" "2024-01-02" "X1" (Some "SHOTTYS")
           (Num.Float 10) (Num.Float 50) (Num.Float 5) None "" "";
         Item.mk "X1-0-IMPACKFUL-2024-01-02" "2024-01-02" "X1" (Some "IMPACKFUL")
           (Num.Float 5) (Num.Float 20) (Num.Float 4) None "" "" ]
  /\ transform_on_2024_01_03 two_owners
  = Ok [ Item.mk "X1-0-IMPACKFUL-2024-01-02" "2024-01-02" "X1" (Some "SHOTTYS")
           (Num.Float 15) (Num.Float 70) (Num.Float (70 / 15)) None "" "" ].
Proof. split; vm_compute; reflexivity. Qed.

(** C2. The division of line 210 is not guarded: a receipt of 5 and its
    reversal of -5 are two candidates of one key whose quantities sum to
    zero, and the transform raises [ZeroDivisionError]. *)
Theorem merge_to_zero_quantity_raises :
  items_on_2024_01_03 reversal
  = Ok [ Item.mk "X1-0-SHOTTYS-2024-01-02" "2024-01-02" "X1" (Some "SHOTTYS")
           (Num.Float 5) (Num.Float 20) (Num.Float 4) None "" "";
         Item.mk "X1-0-SHOTTYS-2024-01-02" "2024-01-02" "X1" (Some "SHOTTYS")
           (Num.Float (-5)) (Num.Float 20) (Num.Float (-4)) None "" "" ]
  /\ transform_on_2024_01_03 reversal = Raise ZeroDivisionError.
Proof. split; vm_compute; reflexivity. Qed.

(** C3, as stated, fails: a kept row whose [Qty] is the text [abc] is not
    shaped with quantity 0, its shaping raises [ValueError]. *)
Lemma unparsable_qty_raises :
  keep_row "2024-01-02" qty_abc = Ok true
  /\ get "Qty" qty_abc = Some "abc"
  /\ PyFloat.of_str "abc" = None
  /\ candidate PyFloat.of_str (Some qty_abc) qty_abc = Raise ValueError.
Proof. split_and!; vm_compute; reflexivity. Qed.

Lemma candidate_numbers_witness :
  (exists c, candidate PyFloat.of_str (Some no_qty) no_qty = Ok c /\ Item.qty c = Num.Int0)
  /\ (exists c, candidate PyFloat.of_str (Some no_value) no_value = Ok c
                /\ Item.actual_value c = Num.Int0)
  /\ candidate PyFloat.of_str (Some qty_abc) qty_abc = Raise ValueError
  /\ candidate PyFloat.of_str (Some value_na) value_na = Raise ValueError
  /\ number_field PyFloat.of_str (get "Qty" no_qty) = Ok Num.Int0
  /\ (exists e, candidate PyFloat.of_str (Some ownerless) qty_abc = Raise e).
Proof.
  split_and!.
  - destruct (candidate_numbers PyFloat.of_str (Some no_qty) no_qty)
      as (_ & _ & _ & Hshaped).
    destruct (Hshaped "SHOTTYS") as (Hqty & _); [vm_compute; reflexivity|].
    apply Hqty; [left; vm_compute; reflexivity|].
    right. exists "20", 20%float. split; vm_compute; reflexivity.
  - destruct (candidate_numbers PyFloat.of_str (Some no_value) no_value)
      as (_ & _ & _ & Hshaped).
    destruct (Hshaped "SHOTTYS") as (_ & Hvalue & _); [vm_compute; reflexivity|].
    apply Hvalue; [|left; vm_compute; reflexivity].
    right. exists "5", 5%float. split; vm_compute; reflexivity.
  - destruct (candidate_numbers PyFloat.of_str (Some qty_abc) qty_abc)
      as (_ & _ & _ & Hshaped).
    destruct (Hshaped "SHOTTYS") as (_ & _ & Hqty & _); [vm_compute; reflexivity|].
    apply (Hqty "abc"); [vm_compute; reflexivity | discriminate | vm_compute; reflexivity].
  - destruct (candidate_numbers PyFloat.of_str (Some value_na) value_na)
      as (_ & _ & _ & Hshaped).
    destruct (Hshaped "SHOTTYS") as (_ & _ & _ & Hvalue); [vm_compute; reflexivity|].
    apply (Hvalue) with "n/a";
      [|vm_compute; reflexivity | discriminate | vm_compute; reflexivity].
    right. exists "5", 5%float. split; vm_compute; reflexivity.
  - destruct (candidate_numbers PyFloat.of_str (Some no_qty) no_qty) as (Hfield & _).
    apply Hfield. left. vm_compute. reflexivity.
  - destruct (candidate_numbers PyFloat.of_str (Some ownerless) qty_abc)
      as (_ & _ & Hraises & _).
    apply (Hraises "abc");
      [left; vm_compute; reflexivity | discriminate | vm_compute; reflexivity].
Defined.

(** C4. The filter reads [obj['Owner']] without testing for the key: a row
    dated on the reference day that has no [Owner] is not excluded, the
    transform raises [KeyError]. *)
Theorem dated_row_without_owner_raises :
  decode_row (get_column_mappings dated_without_owner) (list_to_map stock_maps)
    [-1; 0; 0; 0; 0]%Z
  = row [("Date", "2024-01-02T00:00:00"); ("ItemCode", "X1"); ("Qty", "10");
         ("ActualValue", "50")]
  /\ transform_on_2024_01_03 dated_without_owner = Raise KeyError.
Proof. split; vm_compute; reflexivity. Qed.

(** C5, as stated, fails: a payload without any section yields the empty
    list, no error. *)
Lemma no_sections_gives_empty_list :
  missing_section no_sections /\ transform_on_2024_01_03 no_sections = Ok [].
Proof. split; [by apply missing_ItemData | vm_compute; reflexivity]. Qed.

Lemma missing_section_gives_no_records_witness :
  transform_on_2024_01_03 no_sections = Ok [].
Proof.
  apply (missing_section_gives_no_records Json.loads PyFloat.of_str "2024-01-02" no_sections).
  apply missing_ItemData. reflexivity.
Defined.

(** C6. The range test of line 163 has no lower bound, and Python reads a
    negative index from the end: the index [-2] into a dictionary of three
    values is not a position of it, yet the field is set, to the value
    before the last. *)
Theorem negative_index_is_resolved :
  decode_row (get_column_mappings (stock [])) (list_to_map stock_maps) [-2; 0]%Z
  = row [("Owner", "100374"); ("Date", "2024-01-02T00:00:00")].
Proof. vm_compute. reflexivity. Qed.

Lemma aggregate_idempotent_witness :
  aggregate [merged_x1; receipt_y2] = Ok [merged_x1; receipt_y2].
Proof.
  apply (aggregate_idempotent [receipt_x1; receipt_y2; second_x1]).
  vm_compute. reflexivity.
Defined.

Lemma aggregate_keeps_first_seen_fields_witness :
  exists first r,
    first_with_key (Item.key second_x1) [receipt_x1; receipt_y2; second_x1] = Some first /\
    r ∈ [merged_x1; receipt_y2] /\ Item.key r = Item.key second_x1 /\
    same_descriptive_fields first r /\
    (forall r', r' ∈ [merged_x1; receipt_y2] -> Item.key r' = Item.key second_x1 -> r' = r).
Proof.
  apply (aggregate_keeps_first_seen_fields [receipt_x1; receipt_y2; second_x1]).
  - vm_compute. reflexivity.
  - apply list_elem_of_further, list_elem_of_further, list_elem_of_here.
Defined.

Lemma decode_row_last_position_wins_witness :
  decode_row twice_owner (list_to_map stock_maps) [0; 0]%Z !! Some "Owner" = Some "X1".
Proof.
  apply (decode_row_last_position_wins twice_owner (list_to_map stock_maps)
           [0; 0]%Z 1 0%Z (Some "Owner") "X1").
  - reflexivity.
  - vm_compute. reflexivity.
  - intros [|[|j]] value' v' Hj Hlookup; [lia | lia | discriminate Hlookup].
Defined.

Lemma main_exit_code_witness :
  Cli.main uploading = (0%Z, [Cli.TestConnection; Cli.Scrape; Cli.Upload [receipt_x1]])
  /\ Cli.main nothing_scraped = (0%Z, [Cli.TestConnection; Cli.Scrape])
  /\ Cli.main no_database = (1%Z, [Cli.TestConnection])
  /\ Cli.main (connection_raises Cli.KeyboardInterrupt) = (130%Z, [Cli.TestConnection])
  /\ Cli.main (scrape_raises Cli.Exception) = (1%Z, [Cli.TestConnection; Cli.Scrape])
  /\ Cli.main (upload_raises Cli.Exception)
     = (1%Z, [Cli.TestConnection; Cli.Scrape; Cli.Upload [receipt_x1]]).
Proof.
  split_and!.
  - apply (proj1 (main_exit_code uploading) [receipt_x1] 1);
      [reflexivity.. | discriminate | reflexivity].
  - apply (proj1 (proj2 (main_exit_code nothing_scraped))); reflexivity.
  - apply (proj1 (proj2 (proj2 (main_exit_code no_database)))); reflexivity.
  - apply (proj1 (proj2 (proj2 (proj2 (main_exit_code (connection_raises Cli.KeyboardInterrupt)))))
             Cli.KeyboardInterrupt); reflexivity.
  - apply (proj1 (proj2 (proj2 (proj2 (proj2 (main_exit_code (scrape_raises Cli.Exception))))))
             Cli.Exception); reflexivity.
  - apply (proj2 (proj2 (proj2 (proj2 (proj2 (main_exit_code (upload_raises Cli.Exception))))))
             [receipt_x1] Cli.Exception); [reflexivity.. | discriminate | reflexivity].
Defined.

(** * Further properties of the transform *)

(** ** Decoder *)

Section DecoderMore.

Variable column_mappings : list column_mapping.
Variable encode_maps : gmap string (list string).

(** X1. Every field of a flat row comes from the payload: its value is the
    entry that some position of the row array, holding an index other than
    [-1], selects in the dictionary of that position's column, and its name
    is the caption of that column. *)
Theorem decode_row_sound (item_arr : list Z) (n : option string) (v : string) :
  decode_row column_mappings encode_maps item_arr !! n = Some v ->
  exists i value column data_id dict,
    item_arr !! i = Some value /\ value <> (-1)%Z /\
    column_mappings !! i = Some column /\ name column = n /\
    dataId column = Some data_id /\ encode_maps !! data_id = Some dict /\
    py_index dict value = Some v.
Proof.
  induction item_arr as [|x item_arr IH] using rev_ind; [done|].
  rewrite decode_row_snoc. unfold decode_field. simpl.
  assert (forall i value, item_arr !! i = Some value ->
            (item_arr ++ [x]) !! i = Some value) as Hweaken.
  { intros i value Hi. rewrite lookup_app_l; [done|]. by apply lookup_lt_Some in Hi. }
  destruct (resolve column_mappings encode_maps (length item_arr) x)
    as [[n' v']|] eqn:Hx.
  - destruct (decide (n' = n)) as [->|Hne].
    + rewrite lookup_insert_eq. intros [= ->].
      apply resolve_Some in Hx as (Hval & column & data_id & dict & Hc & Hn & Hd & He & Hr & Hv).
      exists (length item_arr), x, column, data_id, dict. split_and!; try done.
      * by rewrite lookup_app_r, Nat.sub_diag by lia.
      * by apply py_index_Some.
    + rewrite lookup_insert_ne by done. intros Hrow.
      destruct (IH Hrow) as (i & value & column & data_id & dict & Hi & Hrest).
      exists i, value, column, data_id, dict. split; [by apply Hweaken | done].
  - intros Hrow.
    destruct (IH Hrow) as (i & value & column & data_id & dict & Hi & Hrest).
    exists i, value, column, data_id, dict. split; [by apply Hweaken | done].
Qed.

(** X2. Positions beyond the number of columns are ignored: a row array
    decodes to the same flat row as its first [len(column_mappings)]
    positions. *)
Theorem decode_row_beyond_columns (item_arr : list Z) :
  decode_row column_mappings encode_maps item_arr
  = decode_row column_mappings encode_maps (take (length column_mappings) item_arr).
Proof.
  induction item_arr as [|x item_arr IH] using rev_ind; [by rewrite take_nil|].
  destruct (decide (length (item_arr ++ [x]) <= length column_mappings)) as [Hle|Hgt].
  - by rewrite take_ge.
  - rewrite length_app in Hgt. simpl in Hgt.
    rewrite take_app_le by lia. rewrite decode_row_snoc, <- IH.
    unfold decode_field, resolve. simpl.
    rewrite (lookup_ge_None_2 column_mappings (length item_arr)) by lia.
    by destruct (x =? -1)%Z.
Qed.

End DecoderMore.

(** ** Owner remap *)

(** X3. The owner remap is a substitution on the [Owner] field alone: every
    other field is left as it is, a code of the table is replaced by its name
    and any other value passes through unchanged; remapping twice is
    remapping once. *)
Theorem remap_owner_substitutes (o : flat_row) :
  get "Owner" (remap_owner o) = owner_name <$> get "Owner" o
  /\ (forall k, k <> Some "Owner" -> remap_owner o !! k = o !! k)
  /\ remap_owner (remap_owner o) = remap_owner o.
Proof.
  assert (forall o : flat_row,
            get "Owner" (remap_owner o) = owner_name <$> get "Owner" o) as Hget.
  { intros o'. unfold remap_owner, owner_name, get.
    destruct (o' !! Some "Owner") as [code|] eqn:Ho; simpl; [|by rewrite Ho].
    destruct (owner_map !! code) as [owner|] eqn:Hm; simpl; [|by rewrite Ho].
    by rewrite lookup_insert_eq. }
  split_and!; [apply Hget | |].
  - intros k Hk. unfold remap_owner.
    destruct (get "Owner" o) as [code|]; [|done].
    destruct (owner_map !! code) as [owner|]; [|done].
    by rewrite lookup_insert_ne.
  - unfold remap_owner at 1. rewrite Hget.
    destruct (get "Owner" o) as [code|] eqn:Ho; simpl; [|done].
    assert (owner_map !! owner_name code = None) as ->; [|done].
    unfold owner_name. destruct (owner_map !! code) as [owner|] eqn:Hm; simpl; [|done].
    unfold owner_map in Hm.
    repeat (apply lookup_insert_Some in Hm as [[_ <-]|[_ Hm]]; [by vm_compute|]).
    by rewrite lookup_empty in Hm.
Qed.

(** ** Aggregator *)

Lemma aggregate_Ok_inv (candidates out : list Item.t) :
  aggregate candidates = Ok out ->
  exists aggregated,
    for_each aggregate_step candidates [] = Ok aggregated /\
    out = dict_values aggregated /\ well_keyed aggregated /\
    map Item.key out = map fst aggregated.
Proof.
  unfold aggregate.
  destruct (for_each aggregate_step candidates []) as [aggregated|] eqn:Hrun; [|done].
  simpl. intros [= <-]. exists aggregated.
  pose proof (aggregate_loop_well_keyed _ _ Hrun) as Hwk. split_and!; try done.
  destruct Hwk as [_ Hkeys]. unfold dict_values. clear Hrun.
  induction Hkeys as [|[k r] l Hk _ IH]; simpl; [done|]. simpl in Hk. by rewrite Hk, IH.
Qed.

Lemma distinct_in_order_snoc (ks : list string) (k : string) :
  distinct_in_order (ks ++ [k])
  = if bool_decide (k ∈ distinct_in_order ks) then distinct_in_order ks
    else distinct_in_order ks ++ [k].
Proof. unfold distinct_in_order. by rewrite fold_left_app. Qed.

(** X4. The output has one record per distinct key, in the order in which
    the keys are first seen among the candidates. *)
Theorem aggregate_keys_in_first_seen_order (candidates out : list Item.t) :
  aggregate candidates = Ok out ->
  map Item.key out = distinct_in_order (map Item.key candidates)
  /\ NoDup (map Item.key out).
Proof.
  intros (aggregated & Hrun & -> & Hwk & Hkeys)%aggregate_Ok_inv.
  rewrite Hkeys. split; [|apply Hwk].
  refine (for_each_invariant aggregate_step
            (fun seen a => map fst a = distinct_in_order (map Item.key seen))
            _ candidates [] [] aggregated _ Hrun); [|done].
  intros seen a x a' Hinv (r & -> & _)%aggregate_step_Ok.
  rewrite map_app. simpl. rewrite distinct_in_order_snoc, dict_set_keys, <- Hinv.
  destruct (dict_get (Item.key x) a) as [acc|] eqn:Hacc.
  - rewrite bool_decide_eq_true_2; [done|].
    destruct (decide (Item.key x ∈ map fst a)) as [|Hnot]; [done|].
    apply dict_get_None in Hnot. congruence.
  - rewrite bool_decide_eq_false_2; [done|]. by apply dict_get_None.
Qed.

(** X5. Candidates whose keys are all different are returned as they are:
    nothing is merged and nothing is divided, so nothing raises. *)
Theorem aggregate_distinct_keys (candidates : list Item.t) :
  NoDup (map Item.key candidates) -> aggregate candidates = Ok candidates.
Proof.
  intros Hnd. unfold aggregate.
  pose (rest := map (fun c => (Item.key c, c)) candidates).
  assert (map snd rest = candidates) as Hsnd.
  { unfold rest. rewrite map_map. simpl. apply map_id. }
  assert (map fst rest = map Item.key candidates) as Hfst.
  { unfold rest. by rewrite map_map. }
  rewrite <- Hsnd at 1. rewrite (aggregate_loop_distinct rest []).
  - simpl. unfold dict_values. by rewrite Hsnd.
  - split; simpl; [by rewrite Hfst|].
    unfold rest. apply Forall_forall. intros [k r] Hin.
    apply list_elem_of_fmap in Hin as (c & [= -> ->] & _). done.
Qed.

Lemma with_key_snoc (k : string) (seen : list Item.t) (c : Item.t) :
  with_key k (seen ++ [c])
  = with_key k seen ++ (if String.eqb k (Item.key c) then [c] else []).
Proof.
  unfold with_key. rewrite List.filter_app. simpl.
  by destruct (String.eqb k (Item.key c)).
Qed.

Lemma total_snoc (f : Item.t -> Num.t) (first : Item.t) (rest : list Item.t) (c : Item.t) :
  total f first (rest ++ [c]) = Num.add (total f first rest) (f c).
Proof. unfold total. by rewrite map_app, fold_left_app. Qed.

Lemma aggregate_loop_summed (candidates : list Item.t)
    (aggregated : list (string * Item.t)) :
  for_each aggregate_step candidates [] = Ok aggregated ->
  forall k, match dict_get k aggregated with
            | Some r => summed (with_key k candidates) r
            | None => with_key k candidates = []
            end.
Proof.
  intros Hrun.
  refine (for_each_invariant aggregate_step
            (fun seen a => forall k, match dict_get k a with
                                     | Some r => summed (with_key k seen) r
                                     | None => with_key k seen = []
                                     end)
            _ candidates [] [] aggregated _ Hrun); [|done].
  intros seen a x a' Hinv Hstep k. rewrite with_key_snoc.
  pose proof (Hinv (Item.key x)) as Hx.
  destruct (dict_get (Item.key x) a) as [acc|] eqn:Hacc.
  - destruct (Num.truthy (Num.add (Item.qty acc) (Item.qty x))) eqn:Hq.
    + rewrite (aggregate_step_merge a x acc Hacc Hq) in Hstep. injection Hstep as <-.
      rewrite dict_get_set. destruct (String.eqb_spec k (Item.key x)) as [->|Hne].
      * destruct Hx as (first & rest & -> & Hqty & Hval & _).
        exists first, (rest ++ [x]). rewrite !total_snoc, <- Hqty, <- Hval. simpl.
        split_and!; try done.
        by intros [_ [=]]%app_eq_nil.
      * specialize (Hinv k). rewrite app_nil_r. done.
    + by rewrite (aggregate_step_zero_qty a x acc Hacc Hq) in Hstep.
  - rewrite (aggregate_step_first a x Hacc) in Hstep. injection Hstep as <-.
    assert (forall k', dict_get k' (a ++ [(Item.key x, x)])
                       = if String.eqb k' (Item.key x) then
                           match dict_get k' a with Some r => Some r | None => Some x end
                         else dict_get k' a) as Hget.
    { intros k'. rewrite <- (dict_set_new (Item.key x) x a Hacc), dict_get_set.
      destruct (String.eqb_spec k' (Item.key x)) as [->|]; [by rewrite Hacc | done]. }
    rewrite Hget. destruct (String.eqb_spec k (Item.key x)) as [->|Hne].
    + rewrite Hacc, Hx. exists x, []. by split_and!.
    + specialize (Hinv k). rewrite app_nil_r. done.
Qed.

(** X6. Each output record carries the sums of its key: its [qty] and its
    [actual_value] are those of the candidates with that key, added from the
    left in candidate order. A key seen once keeps its candidate unchanged; a
    key seen more than once has a nonzero [qty] and its [actual_unit_cost] is
    the summed value divided by the summed quantity. *)
Theorem aggregate_sums_per_key (candidates out : list Item.t) (r : Item.t) :
  aggregate candidates = Ok out ->
  r ∈ out ->
  exists first rest,
    with_key (Item.key r) candidates = first :: rest /\
    Item.qty r = total Item.qty first rest /\
    Item.actual_value r = total Item.actual_value first rest /\
    (rest = [] -> r = first) /\
    (rest <> [] ->
       Num.truthy (Item.qty r) = true /\
       Item.actual_unit_cost r
       = Num.Float (Num.to_float (Item.actual_value r) / Num.to_float (Item.qty r))%float).
Proof.
  intros (aggregated & Hrun & -> & Hwk & _)%aggregate_Ok_inv Hr.
  apply list_elem_of_fmap in Hr as ([k r'] & -> & Hin). simpl.
  assert (Item.key r' = k) as Hk.
  { destruct Hwk as [_ Hkeys]. by apply (proj1 (Forall_forall _ _) Hkeys (k, r')). }
  pose proof (aggregate_loop_summed _ _ Hrun k) as Hsum.
  rewrite (dict_get_elem k aggregated r') in Hsum; [|apply Hwk | done].
  by rewrite Hk.
Qed.

(** ** The whole transform *)


Lemma for_list_Raise {A B : Type} (f : A -> result B) (l : list A) (e : exn) :
  for_list f l = Raise e -> exists x, x ∈ l /\ f x = Raise e.
Proof.
  induction l as [|x l IH]; simpl; [done|].
  destruct (f x) as [y|e'] eqn:Hx; simpl.
  - destruct (for_list f l) as [ys'|e']; simpl; [done|].
    intros [= ->]. destruct IH as (x' & Hin & Hx'); [done|].
    exists x'. split; [by apply list_elem_of_further | done].
  - intros [= ->]. exists x. split; [apply list_elem_of_here | done].
Qed.

Lemma for_each_Raise {St A : Type} (body : St -> A -> result St) (l : list A)
    (s : St) (e : exn) :
  for_each body l s = Raise e -> exists s' x, x ∈ l /\ body s' x = Raise e.
Proof.
  revert s. induction l as [|x l IH]; intros s; simpl; [done|].
  destruct (body s x) as [s1|e'] eqn:Hx; simpl.
  - intros (s' & x' & Hin & Hx')%IH. exists s', x'.
    split; [by apply list_elem_of_further | done].
  - intros [= ->]. exists s, x. split; [apply list_elem_of_here | done].
Qed.

Section TransformMore.

Variable json_loads : string -> option (list Z).
Variable float_of_str : string -> option float.
Variable date_now : string.

(** The decoding loop keeps only rows that pass the filter, and binds [obj]
    before it keeps any. *)
Lemma decode_rows_kept (column_mappings : list column_mapping)
    (encode_maps : gmap string (list string)) (slices_data : list string) (st : decoded) :
  decode_rows json_loads date_now column_mappings encode_maps slices_data = Ok st ->
  Forall (fun o => keep_row date_now o = Ok true) (output st)
  /\ (output st = [] \/ exists o, obj st = Some o).
Proof.
  unfold decode_rows. intros Hrun.
  refine (for_each_invariant (decode_step json_loads date_now column_mappings encode_maps)
            (fun _ st => Forall (fun o => keep_row date_now o = Ok true) (output st)
                         /\ (output st = [] \/ exists o, obj st = Some o))
            _ slices_data [] _ st _ Hrun); [|by split; [constructor | left]].
  intros _ s item_key s' [Hkept Hobj]. unfold decode_step.
  destruct (negb (startswith item_key "[")); [by intros [= <-]|].
  destruct (json_loads item_key) as [item_arr|]; [|by intros [= <-]].
  destruct (keep_row date_now _) as [[|]|] eqn:Hkeep; [| |done]; simpl; intros [= <-]; simpl.
  - split; [|by right; eexists]. apply Forall_app. split; [done|]. by apply Forall_singleton.
  - split; [done | by right; eexists].
Qed.

(** The exceptions of the stages. *)
Lemma decode_rows_Raise (column_mappings : list column_mapping)
    (encode_maps : gmap string (list string)) (slices_data : list string) (e : exn) :
  decode_rows json_loads date_now column_mappings encode_maps slices_data = Raise e ->
  e = KeyError.
Proof.
  unfold decode_rows. intros (st & item_key & _ & Hstep)%for_each_Raise.
  unfold decode_step in Hstep.
  destruct (negb (startswith item_key "[")); [done|].
  destruct (json_loads item_key) as [item_arr|]; [|done].
  destruct (keep_row date_now _) as [keep|e'] eqn:Hkeep; [done|].
  simpl in Hstep. injection Hstep as ->. unfold keep_row in Hkeep.
  destruct (get "Date" _) as [d|]; [|done].
  destruct (startswith d date_now); [|done].
  destruct (get "Owner" _); [done | congruence].
Qed.

Lemma number_field_Raise (v : option string) (e : exn) :
  number_field float_of_str v = Raise e -> e = ValueError.
Proof.
  unfold number_field. destruct (truthy_field v); [|done].
  destruct v as [s|]; [|done]. destruct (float_of_str s); [done | congruence].
Qed.

Lemma candidate_Raise (o d : flat_row) (e : exn) :
  candidate float_of_str (Some o) d = Raise e -> e = KeyError \/ e = ValueError.
Proof.
  unfold candidate, last_owner. destruct (get "Owner" o) as [owner|]; simpl; [|left; congruence].
  destruct (number_field float_of_str (get "Qty" d)) as [qty|e'] eqn:Hq; simpl;
    [|intros [= <-]; right; by apply number_field_Raise in Hq].
  destruct (number_field float_of_str (get "ActualValue" d)) as [av|e'] eqn:Hv; simpl;
    [|intros [= <-]; right; by apply number_field_Raise in Hv].
  by destruct (unit_cost_guarded qty av) as [cost ->].
Qed.

Lemma aggregate_Raise (candidates : list Item.t) (e : exn) :
  aggregate candidates = Raise e -> e = ZeroDivisionError.
Proof.
  unfold aggregate.
  destruct (for_each aggregate_step candidates []) as [a|e'] eqn:Hrun; [done|].
  simpl. intros [= ->]. apply for_each_Raise in Hrun as (a & x & _ & Hstep).
  unfold aggregate_step, Num.div in Hstep.
  destruct (dict_get (Item.key x) a) as [acc|]; [|done]. simpl in Hstep.
  destruct (Num.truthy _); simpl in Hstep; [done | congruence].
Qed.

Lemma rows_Raise (column_mappings : list column_mapping)
    (encode_maps : gmap string (list string)) (slices_data : list string) (e : exn) :
  (items ← (st ← decode_rows json_loads date_now column_mappings encode_maps slices_data;
            normalize float_of_str st);
   aggregate items) = Raise e ->
  e = KeyError \/ e = ValueError \/ e = ZeroDivisionError.
Proof.
  destruct (decode_rows json_loads date_now column_mappings encode_maps slices_data)
    as [st|e'] eqn:Hd; simpl;
    [|intros [= <-]; left; by apply decode_rows_Raise in Hd].
  apply decode_rows_kept in Hd as [_ Hobj].
  destruct (normalize float_of_str st) as [items|e'] eqn:Hn; simpl;
    [intros ->%aggregate_Raise; tauto|].
  intros [= <-]. unfold normalize in Hn.
  apply for_list_Raise in Hn as (d & Hin & Hc).
  destruct Hobj as [Hnil|[o Ho]]; [rewrite Hnil in Hin; by apply elem_of_nil in Hin|].
  rewrite Ho in Hc. apply candidate_Raise in Hc. tauto.
Qed.

(** X7. On a payload of the data model (a section that is present has its
    expected type, a row key is an array of integers or a text [json.loads]
    rejects) the transform raises nothing but [IndexError], [KeyError],
    [ValueError] and [ZeroDivisionError]; [IndexError] only for a [Slices]
    list that is present and empty. In particular the variable [obj] is
    bound whenever line 183 reads it. *)
Theorem transform_raises_only (dashboard_data : payload) (e : exn) :
  transform_dashboard_data json_loads float_of_str date_now dashboard_data = Raise e ->
  (e = IndexError /\ Slices (get_data_storage dashboard_data) = Some [])
  \/ e = KeyError \/ e = ValueError \/ e = ZeroDivisionError.
Proof.
  unfold transform_dashboard_data, inventory_items, get_slices_data.
  destruct (Slices (get_data_storage dashboard_data)) as [[|s rest]|] eqn:Hs.
  - intros [= <-]. by left.
  - intros H. right. by apply rows_Raise in H.
  - intros H. right. by apply rows_Raise in H.
Qed.



Lemma decode_step_non_row (column_mappings : list column_mapping)
    (encode_maps : gmap string (list string)) (st : decoded) (item_key : string) :
  is_row json_loads item_key = false ->
  decode_step json_loads date_now column_mappings encode_maps st item_key = Ok st.
Proof.
  unfold is_row, decode_step. destruct (startswith item_key "["); simpl; [|done].
  destruct (json_loads item_key) as [item_arr|]; [|done].
  intros H. apply bool_decide_eq_false in H. destruct H. by eexists.
Qed.

(** X22. Entries of the row data whose key does not start with a bracket
    or does not parse are ignored: the decoding loop ends as it does on the
    row keys alone, with the same rows kept and the same last row. *)
Theorem decode_rows_skips_non_rows (column_mappings : list column_mapping)
    (encode_maps : gmap string (list string)) (slices_data : list string) :
  decode_rows json_loads date_now column_mappings encode_maps slices_data
  = decode_rows json_loads date_now column_mappings encode_maps
      (List.filter (is_row json_loads) slices_data).
Proof.
  unfold decode_rows. generalize {| output := []; obj := None |}.
  induction slices_data as [|item_key slices_data IH]; intros st; [done|].
  simpl. destruct (is_row json_loads item_key) eqn:Hrow; simpl.
  - destruct (decode_step _ _ _ _ st item_key) as [st'|]; simpl; [apply IH | done].
  - rewrite decode_step_non_row by done. simpl. apply IH.
Qed.

End TransformMore.

(** * The scraper *)

(** Opens the programs of the scraper up to the calls of the world. *)
Ltac scraper_unfold :=
  unfold Scraper.scrape_markov_inventory, Scraper.scrape_try, Scraper.scrape_except,
    Io.try_finally, Io.try_except_Exception, Io.try_except, Scraper.session_send,
    Scraper.session_close, Scraper.raise_for_status, Scraper.verification_token_of,
    Scraper.response_json, Io.lift, Io.raise, mbind, Io.prog_bind, mret, Io.prog_ret
    in *.

(** Splits on the next outcome the goal or a hypothesis depends on. *)
Ltac io_case :=
  match goal with
  | |- context [match ?x with _ => _ end] => destruct x eqn:?
  | H : context [match ?x with _ => _ end] |- _ => destruct x eqn:?
  | |- context [if ?b then _ else _] => destruct b eqn:?
  | H : context [if ?b then _ else _] |- _ => destruct b eqn:?
  end.

Ltac io_cases := repeat (simpl in *; simplify_eq; try done; io_case); simpl in *; simplify_eq.

(** ** What a program appends to the log *)

Lemma only_sends_quiet {A : Type} (p : Io.prog Scraper.web (list Scraper.event) A) :
  (forall w log, (p w log).2 = log) -> only_sends p.
Proof. intros Hp w log. exists []. by rewrite Hp, app_nil_r. Qed.

Lemma only_sends_send (r : Scraper.request) : only_sends (Scraper.session_send r).
Proof. intros w log. by exists [r]. Qed.

Lemma only_sends_bind {A B : Type} (m : Io.prog Scraper.web (list Scraper.event) A)
    (k : A -> Io.prog Scraper.web (list Scraper.event) B) :
  only_sends m -> (forall a, only_sends (k a)) -> only_sends (m ≫= k).
Proof.
  intros Hm Hk w log. unfold mbind, Io.prog_bind.
  destruct (Hm w log) as [sent Hsent]. destruct (m w log) as [[a|r] log']; simpl in *.
  - destruct (Hk a w log') as [sent' Hsent']. exists (sent ++ sent').
    by rewrite Hsent', Hsent, map_app, (assoc_L (++)).
  - by exists sent.
Qed.

Lemma only_sends_try_except_Exception {A : Type}
    (body : Io.prog Scraper.web (list Scraper.event) A)
    (handler : Io.error -> Io.prog Scraper.web (list Scraper.event) A) :
  only_sends body -> (forall e, only_sends (handler e)) ->
  only_sends (Io.try_except_Exception body handler).
Proof.
  intros Hb Hh w log. unfold Io.try_except_Exception.
  destruct (Hb w log) as [sent Hsent]. destruct (body w log) as [[a|[e|]] log']; simpl in *.
  - by exists sent.
  - destruct (Hh e w log') as [sent' Hsent']. exists (sent ++ sent').
    by rewrite Hsent', Hsent, map_app, (assoc_L (++)).
  - by exists sent.
Qed.

Lemma only_sends_try_except {A : Type}
    (body handler : Io.prog Scraper.web (list Scraper.event) A) :
  only_sends body -> only_sends handler -> only_sends (Io.try_except body handler).
Proof.
  intros Hb Hh w log. unfold Io.try_except.
  destruct (Hb w log) as [sent Hsent]. destruct (body w log) as [[a|r] log']; simpl in *.
  - by exists sent.
  - destruct (Hh w log') as [sent' Hsent']. exists (sent ++ sent').
    by rewrite Hsent', Hsent, map_app, (assoc_L (++)).
Qed.

Section ScraperFacts.

Variable json_loads : string -> option (list Z).
Variable float_of_str : string -> option float.
Variable date_now : string.
Variables (company email : string) (password : option string).
Variables (dashboard_id item_id : string).
Variable w : Scraper.web.

Local Abbreviation scrape_try :=
  (Scraper.scrape_try json_loads float_of_str date_now company email password
     dashboard_id item_id).

(** The [try] block only sends requests. *)
Lemma scrape_try_sends : only_sends scrape_try.
Proof.
  unfold Scraper.scrape_try.
  repeat first
    [ apply only_sends_bind; [|intros ?]
    | apply only_sends_send
    | apply only_sends_quiet; intros ? ?;
      unfold Scraper.raise_for_status, Scraper.verification_token_of,
        Scraper.response_json, Io.lift, Io.raise, mret, Io.prog_ret;
      repeat case_match; done ].
Qed.

Lemma http_ok_test (r : Scraper.response) :
  http_ok r <->
  (400 <=? Scraper.status_code r)%Z && (Scraper.status_code r <? 600)%Z = false.
Proof.
  unfold http_ok. rewrite andb_false_iff, Z.leb_gt, Z.ltb_ge. lia.
Qed.

Lemma login_accepted_test (r : Scraper.response) :
  login_accepted r <->
  bool_decide (Scraper.status_code r = 302%Z)
  || bool_decide (Scraper.status_code r = 200%Z) = true.
Proof.
  unfold login_accepted. by rewrite orb_true_iff, !bool_decide_eq_true.
Qed.

(** The [try] block returns exactly when every step succeeds. *)
Lemma scrape_try_Returns (data : list Item.t) (log : list Scraper.event) :
  scrape_try w [] = (Io.Returns data, log) <->
  exists token dashboard_data logged_out,
    fetched company email password dashboard_id item_id w token dashboard_data /\
    transform_dashboard_data json_loads float_of_str date_now dashboard_data = Ok data /\
    Scraper.send w
      [Scraper.Sent login_form_request;
       Scraper.Sent (login_request company email password token);
       Scraper.Sent (dashboard_request dashboard_id item_id)]
      logout_request = Io.Returns logged_out /\
    log = [Scraper.Sent login_form_request;
           Scraper.Sent (login_request company email password token);
           Scraper.Sent (dashboard_request dashboard_id item_id);
           Scraper.Sent logout_request].
Proof.
  unfold fetched, logged_in, login_form_request, login_request, dashboard_request,
    logout_request.
  split.
  - intros H. scraper_unfold. io_cases.
    repeat match goal with
           | H : _ && _ = false |- _ => apply http_ok_test in H
           | H : _ || _ = true |- _ => apply login_accepted_test in H
           end.
    cbn [app] in *.
    eexists _, _, _. split_and!; [eexists _, _; by split_and! | by eexists | done..].
  - intros (token & dashboard_data & logged_out
            & [(form & login & Hf & Hfok & Ht & Hl & Hlok) (dashboard & Hd & Hdok & Hj)]
            & Htr & Hout & ->).
    apply http_ok_test in Hfok, Hdok. apply login_accepted_test in Hlok.
    scraper_unfold. rewrite Hf. simpl. rewrite Hfok, Ht. simpl. rewrite Hl. simpl.
    rewrite Hlok. simpl. rewrite Hd. simpl. rewrite Hdok, Hj. simpl. rewrite Htr. simpl.
    by rewrite Hout.
Qed.

Lemma scrape_except_sends (e : Io.error) : only_sends (Scraper.scrape_except e).
Proof.
  unfold Scraper.scrape_except.
  apply only_sends_bind; [|intros ?; by apply only_sends_quiet].
  apply only_sends_try_except; [|by apply only_sends_quiet].
  apply only_sends_bind; [apply only_sends_send | intros ?; by apply only_sends_quiet].
Qed.

(** X9. On every path the session is closed exactly once, after the last
    request: the log of a call is a sequence of requests followed by one
    [session.close()]. *)
Theorem session_closed_once_at_the_end :
  exists sent, (Scraper.scrape_markov_inventory json_loads float_of_str date_now company email
     password dashboard_id item_id w []).2 = map Scraper.Sent sent ++ [Scraper.Closed].
Proof.
  unfold Scraper.scrape_markov_inventory, Io.try_finally.
  destruct (only_sends_try_except_Exception scrape_try Scraper.scrape_except
              scrape_try_sends scrape_except_sends w []) as [sent Hsent].
  destruct (Io.try_except_Exception scrape_try Scraper.scrape_except w [])
    as [r log] eqn:Hbody.
  simpl in Hsent. subst log. exists sent. unfold Scraper.session_close.
  by destruct (Scraper.close w _) as [[]|].
Qed.

(** X10. The scraper returns records exactly when the login form, the
    login, the dashboard request, the transform, the logout and the close
    all succeed; the records are then the transform of the fetched payload,
    the login was posted with the token of the form, and the log is the four
    requests in order followed by the close. *)
Theorem scrape_returns_exactly (data : list Item.t) (log : list Scraper.event) :
  Scraper.scrape_markov_inventory json_loads float_of_str date_now company email
    password dashboard_id item_id w [] = (Io.Returns data, log) <->
  exists token dashboard_data logged_out,
    fetched company email password dashboard_id item_id w token dashboard_data /\
    transform_dashboard_data json_loads float_of_str date_now dashboard_data = Ok data /\
    Scraper.send w
      [Scraper.Sent login_form_request;
       Scraper.Sent (login_request company email password token);
       Scraper.Sent (dashboard_request dashboard_id item_id)]
      logout_request = Io.Returns logged_out /\
    Scraper.close w
      [Scraper.Sent login_form_request;
       Scraper.Sent (login_request company email password token);
       Scraper.Sent (dashboard_request dashboard_id item_id);
       Scraper.Sent logout_request] = Io.Returns tt /\
    log = [Scraper.Sent login_form_request;
           Scraper.Sent (login_request company email password token);
           Scraper.Sent (dashboard_request dashboard_id item_id);
           Scraper.Sent logout_request; Scraper.Closed].
Proof.
  unfold Scraper.scrape_markov_inventory, Io.try_finally, Io.try_except_Exception.
  split.
  - destruct (scrape_try w []) as [[a|[e|]] log'] eqn:Htry.
    + apply scrape_try_Returns in Htry
        as (token & dashboard_data & logged_out & Hf & Htr & Hout & ->).
      unfold Scraper.session_close.
      destruct (Scraper.close w _) as [[]|] eqn:Hclose; [|done].
      intros [= <- <-]. by exists token, dashboard_data, logged_out.
    + unfold Scraper.scrape_except, Scraper.session_close, Io.try_except,
        Scraper.session_send, Io.raise, mbind, Io.prog_bind, mret, Io.prog_ret.
      intros H. by io_cases.
    + unfold Scraper.session_close. intros H. by io_cases.
  - intros (token & dashboard_data & logged_out & Hf & Htr & Hout & Hclose & ->).
    assert (scrape_try w []
            = (Io.Returns data,
               [Scraper.Sent login_form_request;
                Scraper.Sent (login_request company email password token);
                Scraper.Sent (dashboard_request dashboard_id item_id);
                Scraper.Sent logout_request])) as ->.
    { apply scrape_try_Returns. by exists token, dashboard_data, logged_out. }
    unfold Scraper.session_close. by rewrite Hclose.
Qed.

(** X11. Cleanup after a failure of the [try] block. An exception that is
    an [Exception] is followed by one more logout request, whose own outcome
    is ignored; an exception outside [Exception], such as
    [KeyboardInterrupt], is followed by no logout. In both cases the session
    is closed last, and the call raises the exception of the [try] block as
    it was, unless [session.close()] itself raises: then it raises that of
    the close. *)
Theorem scrape_cleanup (r : Io.raised) (log : list Scraper.event) :
  scrape_try w [] = (Io.Raises r, log) ->
  let log' := match r with
              | Io.Exception _ => log ++ [Scraper.Sent logout_request]
              | Io.KeyboardInterrupt => log
              end in
  Scraper.scrape_markov_inventory json_loads float_of_str date_now company email
    password dashboard_id item_id w []
  = (match Scraper.close w log' with
     | Io.Returns _ => Io.Raises r
     | Io.Raises of_close => Io.Raises of_close
     end,
     log' ++ [Scraper.Closed]).
Proof.
  intros Htry log'. subst log'.
  unfold Scraper.scrape_markov_inventory, Io.try_finally, Io.try_except_Exception.
  rewrite Htry. destruct r as [e|].
  - unfold Scraper.scrape_except, Scraper.session_close, Io.try_except,
      Scraper.session_send, Io.raise, mbind, Io.prog_bind, mret, Io.prog_ret,
      logout_request.
    destruct (Scraper.send w log _) as [a|r']; simpl;
      by destruct (Scraper.close w _) as [[]|].
  - unfold Scraper.session_close. by destruct (Scraper.close w _) as [[]|].
Qed.

Lemma scrape_try_dashboard :
  Scraper.Sent (dashboard_request dashboard_id item_id) ∈ (scrape_try w []).2 ->
  exists token, logged_in company email password w token.
Proof.
  assert (Scraper.dashboard_api_url <> Scraper.login_url) as Hlogin by done.
  unfold dashboard_request, logged_in, login_form_request, login_request.
  intros H. scraper_unfold. io_cases; cbn [app] in *;
    repeat match goal with
           | H : _ && _ = false |- _ => apply http_ok_test in H
           | H : _ || _ = true |- _ => apply login_accepted_test in H
           end;
    first [ by (eexists; eexists _, _; split_and!)
          | exfalso;
            repeat (apply elem_of_cons in H as [H|H]; [by simplify_eq|]);
            by apply elem_of_nil in H ].
Qed.

(** X12. The dashboard is requested only after a login that was accepted:
    if a call sends the dashboard request, the login form came back without
    an HTTP error and held a token, and the login posted with that token was
    answered with status 200 or 302. *)
Theorem dashboard_requested_only_when_logged_in :
  Scraper.Sent (dashboard_request dashboard_id item_id)
  ∈ (Scraper.scrape_markov_inventory json_loads float_of_str date_now company email
       password dashboard_id item_id w []).2 ->
  exists token, logged_in company email password w token.
Proof.
  assert (Scraper.dashboard_api_url <> Scraper.logout_url) as Hlogout by done.
  intros H. apply scrape_try_dashboard.
  unfold Scraper.scrape_markov_inventory, Io.try_finally, Io.try_except_Exception,
    Scraper.scrape_except, Scraper.session_close, Io.try_except, Scraper.session_send,
    Io.raise, mbind, Io.prog_bind, mret, Io.prog_ret, dashboard_request in *.
  destruct (scrape_try w []) as [[a|[e|]] log]; simpl in *;
    repeat case_match; simplify_eq; simpl in *;
    repeat (apply elem_of_app in H as [H|H]; [|by apply list_elem_of_singleton in H]);
    done.
Qed.

(** X13. A logout that raises an [Exception] after a successful transform
    discards the records: the handler sends a second logout, the session is
    closed, and the call raises instead of returning the records: the
    exception of the first logout, unless [session.close()] itself raises,
    and then that of the close. *)
Theorem failed_logout_discards_records (token : string) (dashboard_data : payload)
    (data : list Item.t) (e : Io.error) :
  fetched company email password dashboard_id item_id w token dashboard_data ->
  transform_dashboard_data json_loads float_of_str date_now dashboard_data = Ok data ->
  Scraper.send w
    [Scraper.Sent login_form_request;
     Scraper.Sent (login_request company email password token);
     Scraper.Sent (dashboard_request dashboard_id item_id)]
    logout_request = Io.Raises (Io.Exception e) ->
  Scraper.scrape_markov_inventory json_loads float_of_str date_now company email
    password dashboard_id item_id w []
  = (match Scraper.close w
             [Scraper.Sent login_form_request;
              Scraper.Sent (login_request company email password token);
              Scraper.Sent (dashboard_request dashboard_id item_id);
              Scraper.Sent logout_request; Scraper.Sent logout_request]
     with
     | Io.Returns _ => Io.Raises (Io.Exception e)
     | Io.Raises of_close => Io.Raises of_close
     end,
     [Scraper.Sent login_form_request;
      Scraper.Sent (login_request company email password token);
      Scraper.Sent (dashboard_request dashboard_id item_id);
      Scraper.Sent logout_request; Scraper.Sent logout_request; Scraper.Closed]).
Proof.
  unfold fetched, logged_in, login_form_request, login_request, dashboard_request,
    logout_request.
  intros [(form & login & Hf & Hfok & Ht & Hl & Hlok) (dashboard & Hd & Hdok & Hj)]
    Htr Hout.
  apply http_ok_test in Hfok, Hdok. apply login_accepted_test in Hlok.
  scraper_unfold. rewrite Hf. simpl. rewrite Hfok, Ht. simpl. rewrite Hl. simpl.
  rewrite Hlok. simpl. rewrite Hd. simpl. rewrite Hdok, Hj. simpl. rewrite Htr. simpl.
  rewrite Hout. simpl.
  destruct (Scraper.send w [_; _; _; _] _) as [a|r]; simpl;
    by destruct (Scraper.close w _) as [[]|].
Qed.

End ScraperFacts.

(** * The uploader and the connection test *)

Ltac db_unfold :=
  unfold Db.upload_inventory_to_postgres, Db.upload_try, Db.upload_except,
    Db.upload_finally, Db.test_connection, Db.test_connection_try, Db.call,
    Db.set_conn, Db.set_cursor, Db.if_conn, Db.if_cursor, Io.try_finally,
    Io.try_except_Exception, Io.raise, mbind, Io.prog_bind, mret, Io.prog_ret in *.

Ltac db_cases :=
  db_unfold; io_cases;
  repeat match goal with
         | u : unit |- _ => destruct u
         | H : String.eqb _ _ = false |- _ => apply String.eqb_neq in H
         | H : String.eqb _ _ = true |- _ => apply String.eqb_eq in H
         end.

(** Refutes a membership [H] in an explicit log. *)
Ltac not_in_log H :=
  repeat (apply elem_of_cons in H as [H|H]; [done|]); by apply elem_of_nil in H.

Section DbFacts.

Variable environ : gmap string string.
Variable w : Db.db.

(** X14. The uploader returns exactly when a connection string is given or
    found in the environment and the connection, the cursor, the batch
    insert, the commit and both closes succeed. It then returns the number
    of records it was given, after sending one row per record in a single
    [execute_values], committing once and closing the cursor and the
    connection, in that order. *)
Theorem upload_returns_exactly (inventory_data : list Item.t)
    (database_url : option string) (n : nat) (fr : Db.frame) :
  Db.upload_inventory_to_postgres environ inventory_data database_url w Db.start
  = (Io.Returns n, fr) <->
  exists url,
    Db.url_or_environ environ database_url = Some url /\ url <> "" /\
    Db.psycopg2_connect w url = Io.Returns tt /\
    Db.conn_cursor w = Io.Returns tt /\
    Db.execute_values w (map Db.record_of inventory_data) = Io.Returns tt /\
    Db.conn_commit w = Io.Returns tt /\
    Db.cursor_close w = Io.Returns tt /\
    Db.conn_close w = Io.Returns tt /\
    n = length inventory_data /\
    fr = {| Db.log := [Db.Connect url; Db.Cursor;
                       Db.ExecuteValues (map Db.record_of inventory_data);
                       Db.Commit; Db.CursorClose; Db.ConnClose];
            Db.conn := true; Db.cursor := true |}.
Proof.
  split.
  - intros H. db_cases. eexists. split_and!; try done. by rewrite length_map.
  - intros (url & Hurl & Hne & Hc & Hcur & Hex & Hcom & Hcc & Hclose & -> & ->).
    apply String.eqb_neq in Hne. db_unfold. rewrite Hurl, Hne. simpl.
    rewrite Hc. simpl. rewrite Hcur. simpl. rewrite Hex. simpl. rewrite Hcom. simpl.
    rewrite Hcc. simpl. rewrite Hclose. simpl. by rewrite length_map.
Qed.

(** X15. Without a connection string, neither given nor in the environment
    (or an empty one), the uploader raises its [ValueError] before any call
    of the database library. *)
Theorem upload_without_url (inventory_data : list Item.t) (database_url : option string) :
  Db.url_or_environ environ database_url = None
  \/ Db.url_or_environ environ database_url = Some "" ->
  Db.upload_inventory_to_postgres environ inventory_data database_url w Db.start
  = (Io.Raises (Io.Exception Io.NoDatabaseUrl), Db.start).
Proof.
  unfold Db.upload_inventory_to_postgres. by intros [->| ->].
Qed.

(** X16. A rollback and a result never go together: if the uploader rolls
    back it does not return, and it rolls back after a commit only when the
    commit itself raised an [Exception]. *)
Theorem upload_rollback_means_failure (inventory_data : list Item.t)
    (database_url : option string) (r : Io.outcome nat) (fr : Db.frame) :
  Db.upload_inventory_to_postgres environ inventory_data database_url w Db.start
  = (r, fr) ->
  Db.Rollback ∈ Db.log fr ->
  (forall n, r <> Io.Returns n)
  /\ (Db.Commit ∈ Db.log fr -> exists e, Db.conn_commit w = Io.Raises (Io.Exception e)).
Proof.
  intros Hrun Hrb. split.
  - intros n ->. db_cases. simpl in Hrb. by not_in_log Hrb.
  - intros Hcommit. db_cases; try by eexists.
    all: exfalso; simpl in *; first [by not_in_log Hrb | by not_in_log Hcommit].
Qed.

(** X17. Whenever the connection was opened, the uploader closes it before
    it returns or raises, whatever happened in between, unless closing the
    cursor raises: [conn.close()] is then the last call. *)
Theorem upload_closes_connection (inventory_data : list Item.t)
    (database_url : option string) (url : string) :
  Db.url_or_environ environ database_url = Some url -> url <> "" ->
  Db.psycopg2_connect w url = Io.Returns tt ->
  Db.cursor_close w = Io.Returns tt ->
  last (Db.log
          (Db.upload_inventory_to_postgres environ inventory_data database_url
             w Db.start).2) = Some Db.ConnClose.
Proof.
  intros Hurl Hne%String.eqb_neq Hc Hcc.
  destruct (Db.upload_inventory_to_postgres _ _ _ _ _) as [r fr] eqn:Hrun.
  unfold Db.upload_inventory_to_postgres in Hrun. rewrite Hurl, Hne in Hrun.
  db_unfold. rewrite Hc, Hcc in Hrun. by io_cases.
Qed.

(** X18. The connection test never raises an [Exception]: every failure
    becomes [False]. It returns [True] exactly when a connection string is
    given or found, the connection, the cursor, the query and both closes
    succeed, and the query returns a row that is not empty. *)
Theorem test_connection_true_exactly (database_url : option string) :
  (forall e, (Db.test_connection environ database_url w Db.start).1
             <> Io.Raises (Io.Exception e))
  /\ ((Db.test_connection environ database_url w Db.start).1 = Io.Returns true <->
      exists url version rest,
        Db.url_or_environ environ database_url = Some url /\ url <> "" /\
        Db.psycopg2_connect w url = Io.Returns tt /\
        Db.conn_cursor w = Io.Returns tt /\
        Db.cursor_execute w "SELECT version();" = Io.Returns tt /\
        Db.cursor_fetchone w = Io.Returns (Some (version :: rest)) /\
        Db.cursor_close w = Io.Returns tt /\
        Db.conn_close w = Io.Returns tt).
Proof.
  split_and!.
  - intros e H. by db_cases.
  - split.
    + intros H. db_cases. eexists _, _, _. by split_and!.
    + intros (url & version & rest & Hurl & Hne%String.eqb_neq & Hc & Hcur & Hex & Hf
              & Hcc & Hclose).
      db_unfold. rewrite Hurl, Hne. simpl. rewrite Hc. simpl. rewrite Hcur. simpl.
      rewrite Hex. simpl. rewrite Hf. simpl. rewrite Hcc. simpl. by rewrite Hclose.
Qed.

(** X19. A connection test that reports [False] leaves the connection it
    opened unclosed: [conn.close()] is called on that path only when it is
    the call that failed. *)
Theorem test_connection_failure_skips_close (database_url : option string)
    (fr : Db.frame) :
  Db.test_connection environ database_url w Db.start = (Io.Returns false, fr) ->
  Db.ConnClose ∈ Db.log fr ->
  exists e, Db.conn_close w = Io.Raises (Io.Exception e).
Proof.
  intros Hrun Hclose. db_cases; try by eexists.
  all: exfalso; simpl in *; by not_in_log Hclose.
Qed.

End DbFacts.

(** * The run *)

Section RunFacts.

Variable json_loads : string -> option (list Z).
Variable float_of_str : string -> option float.
Variable date_now : string.
Variable environ : gmap string string.
Variable w : Scraper.web.
Variable db_test db_upload : Db.db.

Local Abbreviation collaborators :=
  (run_collaborators json_loads float_of_str date_now environ w db_test db_upload).

(** The records of the transform have distinct keys. *)
Lemma transform_keys_distinct (dashboard_data : payload) (out : list Item.t) :
  transform_dashboard_data json_loads float_of_str date_now dashboard_data = Ok out ->
  NoDup (map Item.key out).
Proof.
  unfold transform_dashboard_data.
  destruct (inventory_items _ _ _ _) as [items|]; [|done]. simpl.
  intros (aggregated & _ & _ & Hwk & ->)%aggregate_Ok_inv. apply Hwk.
Qed.

(** What the scraper returns was fetched and transformed. *)
Lemma scrape_Returns_fetched (company email : string) (password : option string)
    (dashboard_id item_id : string) (data : list Item.t) (log : list Scraper.event) :
  Scraper.scrape_markov_inventory json_loads float_of_str date_now company email
    password dashboard_id item_id w [] = (Io.Returns data, log) ->
  exists token dashboard_data,
    fetched company email password dashboard_id item_id w token dashboard_data /\
    transform_dashboard_data json_loads float_of_str date_now dashboard_data = Ok data.
Proof.
  unfold Scraper.scrape_markov_inventory, Io.try_finally, Io.try_except_Exception.
  destruct (Scraper.scrape_try _ _ _ _ _ _ _ _ w []) as [[a|[e|]] log'] eqn:Htry.
  - apply scrape_try_Returns in Htry
      as (token & dashboard_data & logged_out & Hf & Htr & _).
    unfold Scraper.session_close. destruct (Scraper.close w _) as [[]|]; [|done].
    intros [= <- <-]. by exists token, dashboard_data.
  - unfold Scraper.scrape_except, Scraper.session_close, Io.try_except,
      Scraper.session_send, Io.raise, mbind, Io.prog_bind, mret, Io.prog_ret.
    intros H. by io_cases.
  - unfold Scraper.session_close. intros H. by io_cases.
Qed.

(** X20. Without [DATABASE_URL] in the environment, or with an empty one,
    the run ends with exit code 1 after the connection test: nothing is
    scraped and nothing is uploaded, whatever the network and the database
    would do. *)
Theorem main_without_database_url :
  environ !! "DATABASE_URL" = None \/ environ !! "DATABASE_URL" = Some "" ->
  Cli.main collaborators = (1%Z, [Cli.TestConnection]).
Proof.
  intros Hurl.
  assert (Cli.test_connection collaborators = Cli.Returns false) as Ht.
  { simpl. unfold Db.test_connection, Db.url_or_environ. by destruct Hurl as [->| ->]. }
  by run_main.
Qed.

(** X21. Whatever [main] hands to the uploader was scraped in the same run
    after an accepted login and is the transform of the fetched payload: it
    is not empty and no two of its records have the same key, the primary
    key of the upsert. *)
Theorem main_uploads_transformed_records (inventory_data : list Item.t) :
  Cli.Upload inventory_data ∈ (Cli.main collaborators).2 ->
  inventory_data <> [] /\ NoDup (map Item.key inventory_data) /\
  exists token dashboard_data,
    fetched (default "" (environ !! "MARKOV_COMPANY")) (default "" (environ !! "MARKOV_EMAIL"))
      (environ !! "MARKOV_PASSWORD") "100-ShottysLLC" "gridDashboardItem6" w token
      dashboard_data /\
    transform_dashboard_data json_loads float_of_str date_now dashboard_data
    = Ok inventory_data.
Proof.
  unfold Cli.main, Cli.main_try, Cli.perform, mbind, Cli.prog_bind, mret, Cli.prog_ret.
  simpl.
  destruct (seen_by_main (Db.test_connection _ _ _ _)) as [[|]|[|]]; simpl;
    try (intros H; by not_in_log H).
  destruct (seen_by_main (scrape_of_main _ _ _ _ _)) as [[|x l]|[|]] eqn:Hs; simpl;
    try (intros H; by not_in_log H).
  assert (exists log, scrape_of_main json_loads float_of_str date_now environ w
                      = (Io.Returns (x :: l), log)) as [log Hrun].
  { unfold seen_by_main in Hs.
    destruct (scrape_of_main _ _ _ _ _) as [[a|[e|]] log]; simpl in Hs; [|done..].
    injection Hs as ->. by exists log. }
  apply scrape_Returns_fetched in Hrun as (token & dashboard_data & Hf & Htr).
  intros H.
  assert (inventory_data = x :: l) as ->.
  { destruct (seen_by_main (Db.upload_inventory_to_postgres _ _ _ _ _)) as [n|[|]];
      simpl in H;
      repeat (apply elem_of_cons in H as [H|H]; [by simplify_eq|]);
      by apply elem_of_nil in H. }
  split_and!; [done | by apply transform_keys_distinct in Htr |].
  by exists token, dashboard_data.
Qed.

End RunFacts.

(** * Closed examples of the further properties *)

Lemma decode_row_sound_witness :
  exists i value column data_id dict,
    [0; -1; 0]%Z !! i = Some value /\ value <> (-1)%Z /\
    get_column_mappings (stock []) !! i = Some column /\ name column = Some "ItemCode" /\
    dataId column = Some data_id /\
    (list_to_map stock_maps : gmap string (list string)) !! data_id = Some dict /\
    py_index dict value = Some "X1".
Proof.
  apply (decode_row_sound (get_column_mappings (stock [])) (list_to_map stock_maps)
           [0; -1; 0]%Z (Some "ItemCode") "X1").
  vm_compute. reflexivity.
Defined.

Lemma aggregate_keys_in_first_seen_order_witness :
  map Item.key [merged_x1; receipt_y2]
  = distinct_in_order (map Item.key [receipt_x1; receipt_y2; second_x1])
  /\ NoDup (map Item.key [merged_x1; receipt_y2]).
Proof.
  apply (aggregate_keys_in_first_seen_order [receipt_x1; receipt_y2; second_x1]).
  vm_compute. reflexivity.
Defined.

Lemma aggregate_distinct_keys_witness :
  aggregate [receipt_x1; receipt_y2] = Ok [receipt_x1; receipt_y2].
Proof.
  apply (aggregate_distinct_keys [receipt_x1; receipt_y2]).
  apply NoDup_cons. split.
  - intros Hin%list_elem_of_singleton. discriminate Hin.
  - apply NoDup_singleton.
Defined.

Lemma aggregate_sums_per_key_witness :
  exists first rest,
    with_key (Item.key merged_x1) [receipt_x1; receipt_y2; second_x1] = first :: rest /\
    Item.qty merged_x1 = total Item.qty first rest /\
    Item.actual_value merged_x1 = total Item.actual_value first rest /\
    (rest = [] -> merged_x1 = first) /\
    (rest <> [] ->
       Num.truthy (Item.qty merged_x1) = true /\
       Item.actual_unit_cost merged_x1
       = Num.Float (Num.to_float (Item.actual_value merged_x1)
                    / Num.to_float (Item.qty merged_x1))%float).
Proof.
  apply (aggregate_sums_per_key [receipt_x1; receipt_y2; second_x1]
           [merged_x1; receipt_y2] merged_x1).
  - vm_compute. reflexivity.
  - apply list_elem_of_here.
Defined.

Lemma transform_raises_only_witness :
  (KeyError = IndexError /\ Slices (get_data_storage dated_without_owner) = Some [])
  \/ KeyError = KeyError \/ KeyError = ValueError \/ KeyError = ZeroDivisionError.
Proof.
  apply (transform_raises_only Json.loads PyFloat.of_str "2024-01-02"
           dated_without_owner KeyError).
  vm_compute. reflexivity.
Defined.


Lemma scrape_cleanup_witness :
  scrape_example rejecting_web
  = (Io.Raises (Io.Exception (Io.LoginFailed 401)),
     ([form_sent; login_sent] ++ [Scraper.Sent logout_request]) ++ [Scraper.Closed])
  /\ scrape_example (unclosable rejecting_web)
  = (Io.Raises (Io.Exception close_failed),
     ([form_sent; login_sent] ++ [Scraper.Sent logout_request]) ++ [Scraper.Closed]).
Proof.
  split.
  - apply (scrape_cleanup Json.loads PyFloat.of_str "2024-01-02" "Shottys"
             "ops@example.com" None "100-ShottysLLC" "gridDashboardItem6" rejecting_web
             (Io.Exception (Io.LoginFailed 401)) [form_sent; login_sent]).
    vm_compute. reflexivity.
  - apply (scrape_cleanup Json.loads PyFloat.of_str "2024-01-02" "Shottys"
             "ops@example.com" None "100-ShottysLLC" "gridDashboardItem6"
             (unclosable rejecting_web)
             (Io.Exception (Io.LoginFailed 401)) [form_sent; login_sent]).
    vm_compute. reflexivity.
Defined.

Lemma dashboard_requested_only_when_logged_in_witness :
  exists token, logged_in "Shottys" "ops@example.com" None good_web token.
Proof.
  apply (dashboard_requested_only_when_logged_in Json.loads PyFloat.of_str "2024-01-02"
           "Shottys" "ops@example.com" None "100-ShottysLLC" "gridDashboardItem6"
           good_web).
  assert ((Scraper.scrape_markov_inventory Json.loads PyFloat.of_str "2024-01-02"
             "Shottys" "ops@example.com" None "100-ShottysLLC" "gridDashboardItem6"
             good_web []).2
          = [form_sent; login_sent; dashboard_sent; logout_sent; Scraper.Closed]) as ->.
  { vm_compute. reflexivity. }
  apply list_elem_of_further, list_elem_of_further, list_elem_of_here.
Defined.

Lemma fetched_example (logout : Io.outcome Scraper.response) :
  fetched "Shottys" "ops@example.com" None "100-ShottysLLC" "gridDashboardItem6"
    (web_of 302 logout two_owners) "t0k" two_owners.
Proof.
  split.
  - eexists _, _. split_and!; [reflexivity | | reflexivity | reflexivity | by left].
    intros [Hlow _]. simpl in Hlow. lia.
  - eexists. split_and!; [reflexivity | | reflexivity].
    intros [Hlow _]. simpl in Hlow. lia.
Defined.

Lemma fetched_unclosable (logout : Io.outcome Scraper.response) :
  fetched "Shottys" "ops@example.com" None "100-ShottysLLC" "gridDashboardItem6"
    (unclosable (web_of 302 logout two_owners)) "t0k" two_owners.
Proof.
  split.
  - eexists _, _. split_and!; [reflexivity | | reflexivity | reflexivity | by left].
    intros [Hlow _]. simpl in Hlow. lia.
  - eexists. split_and!; [reflexivity | | reflexivity].
    intros [Hlow _]. simpl in Hlow. lia.
Defined.

Lemma failed_logout_discards_records_witness :
  scrape_example flaky_logout_web
  = (Io.Raises (Io.Exception connection_lost),
     [form_sent; login_sent; dashboard_sent; logout_sent; logout_sent; Scraper.Closed])
  /\ scrape_example (unclosable flaky_logout_web)
  = (Io.Raises (Io.Exception close_failed),
     [form_sent; login_sent; dashboard_sent; logout_sent; logout_sent; Scraper.Closed]).
Proof.
  split.
  - apply (failed_logout_discards_records Json.loads PyFloat.of_str "2024-01-02"
             "Shottys" "ops@example.com" None "100-ShottysLLC" "gridDashboardItem6"
             flaky_logout_web "t0k" two_owners [two_owners_record] connection_lost).
    + apply fetched_example.
    + vm_compute. reflexivity.
    + reflexivity.
  - apply (failed_logout_discards_records Json.loads PyFloat.of_str "2024-01-02"
             "Shottys" "ops@example.com" None "100-ShottysLLC" "gridDashboardItem6"
             (unclosable flaky_logout_web) "t0k" two_owners [two_owners_record]
             connection_lost).
    + apply fetched_unclosable.
    + vm_compute. reflexivity.
    + reflexivity.
Defined.

Lemma upload_without_url_witness :
  Db.upload_inventory_to_postgres unconfigured [two_owners_record] None good_db Db.start
  = (Io.Raises (Io.Exception Io.NoDatabaseUrl), Db.start).
Proof.
  apply (upload_without_url unconfigured good_db [two_owners_record] None).
  left. reflexivity.
Defined.

Lemma upload_rollback_means_failure_witness :
  (forall n : nat, Io.Raises (Io.Exception batch_rejected) <> Io.Returns n)
  /\ (Db.Commit ∈ [Db.Connect "postgresql://inventory"; Db.Cursor;
                   Db.ExecuteValues (map Db.record_of [two_owners_record]);
                   Db.Rollback; Db.CursorClose; Db.ConnClose] ->
      exists e, Db.conn_commit rejecting_db = Io.Raises (Io.Exception e)).
Proof.
  apply (upload_rollback_means_failure configured rejecting_db [two_owners_record] None
           (Io.Raises (Io.Exception batch_rejected))
           {| Db.log := [Db.Connect "postgresql://inventory"; Db.Cursor;
                         Db.ExecuteValues (map Db.record_of [two_owners_record]);
                         Db.Rollback; Db.CursorClose; Db.ConnClose];
              Db.conn := true; Db.cursor := true |}).
  - vm_compute. reflexivity.
  - simpl. do 3 apply list_elem_of_further. apply list_elem_of_here.
Defined.

Lemma upload_closes_connection_witness :
  last (Db.log (Db.upload_inventory_to_postgres configured [two_owners_record] None
                  rejecting_db Db.start).2) = Some Db.ConnClose.
Proof.
  apply (upload_closes_connection configured rejecting_db [two_owners_record] None
           "postgresql://inventory").
  - vm_compute. reflexivity.
  - discriminate.
  - reflexivity.
  - reflexivity.
Defined.

Lemma test_connection_failure_skips_close_witness :
  exists e, Db.conn_close unclosable_db = Io.Raises (Io.Exception e).
Proof.
  apply (test_connection_failure_skips_close configured unclosable_db None
           {| Db.log := [Db.Connect "postgresql://inventory"; Db.Cursor;
                         Db.Execute "SELECT version();"; Db.Fetchone; Db.CursorClose;
                         Db.ConnClose];
              Db.conn := false; Db.cursor := false |}).
  - vm_compute. reflexivity.
  - simpl. do 5 apply list_elem_of_further. apply list_elem_of_here.
Defined.

Lemma main_without_database_url_witness :
  Cli.main (run_collaborators Json.loads PyFloat.of_str "2024-01-02" unconfigured
              good_web good_db good_db)
  = (1%Z, [Cli.TestConnection]).
Proof.
  apply (main_without_database_url Json.loads PyFloat.of_str "2024-01-02" unconfigured
           good_web good_db good_db).
  left. reflexivity.
Defined.

Lemma main_uploads_transformed_records_witness :
  [two_owners_record] <> [] /\ NoDup (map Item.key [two_owners_record]) /\
  exists token dashboard_data,
    fetched (default "" (configured !! "MARKOV_COMPANY"))
      (default "" (configured !! "MARKOV_EMAIL")) (configured !! "MARKOV_PASSWORD")
      "100-ShottysLLC" "gridDashboardItem6" good_web token dashboard_data /\
    transform_dashboard_data Json.loads PyFloat.of_str "2024-01-02" dashboard_data
    = Ok [two_owners_record].
Proof.
  apply (main_uploads_transformed_records Json.loads PyFloat.of_str "2024-01-02"
           configured good_web good_db good_db [two_owners_record]).
  assert ((Cli.main (run_collaborators Json.loads PyFloat.of_str "2024-01-02" configured
                       good_web good_db good_db)).2
          = [Cli.TestConnection; Cli.Scrape; Cli.Upload [two_owners_record]]) as ->.
  { vm_compute. reflexivity. }
  apply list_elem_of_further, list_elem_of_further, list_elem_of_here.
Defined.
